(** * LinkBay-AI: a shallow embedding of the orchestration core

    The development follows the Python sources file by file:

    - [Py]            the fragment of the Python run time the code relies on
                      (exceptions and their class hierarchy, f-string messages,
                      [int]/[float] arithmetic, insertion-ordered dictionaries);
    - [BaseProvider]  [linkbay_ai/providers.py]: the bounded-retry wrapper;
    - [DeepSeekProvider], [AIOrchestrator]
                      [linkbay-ai/providers.py] and [linkbay_ai/core.py];
    - [CostController] [linkbay_ai/cost_controller.py];
    - [ToolsManager]  [linkbay_ai/tools.py].

    Logging calls are not part of the model: they neither change the state of
    the objects nor raise. *)

From Stdlib Require Import ZArith List String Floats Lia.
From stdpp Require Import gmap strings list fin_maps.

Local Open Scope string_scope.
Local Open Scope list_scope.
Local Open Scope Z_scope.

(* Decimal literals such as 0.14 denote the nearest binary64 value, as in
   Python. *)
Set Warnings "-inexact-float".

(* ===================================================================== *)
(** ** The Python fragment                                                *)
(* ===================================================================== *)

Module Py.

(** Exception classes: the builtins the code can meet, the classes of the
    [openai] client that [_execute_with_retry] discriminates, and the classes
    this repository declares.  [UserException] and [UserBaseException] stand
    for any further class deriving from [Exception], respectively directly
    from [BaseException]. *)
Inductive exc_class :=
  | BaseException | Exception | CancelledError
  | ArithmeticError | OverflowError | ZeroDivisionError
  | AttributeError | TypeError | ValueError
  | OpenAIError | APIError | APIStatusError | APIConnectionError
  | APITimeoutError | RateLimitError
  | ProviderError | ProviderTimeoutError | ProviderRateLimitError
  | ProviderConnectionError
  | BudgetExceededException
  | ToolExecutionError | ToolValidationError | ToolNotFoundError
  | UserException (cls : string)
  | UserBaseException (cls : string).

#[global] Instance exc_class_eq_dec : EqDecision exc_class.
Proof. solve_decision. Defined.

(** The direct base class ([class C(B)]). *)
Definition base (c : exc_class) : option exc_class :=
  match c with
  | BaseException => None
  | Exception => Some BaseException
  | CancelledError => Some BaseException
  | ArithmeticError => Some Exception
  | OverflowError => Some ArithmeticError
  | ZeroDivisionError => Some ArithmeticError
  | AttributeError => Some Exception
  | TypeError => Some Exception
  | ValueError => Some Exception
  | OpenAIError => Some Exception
  | APIError => Some OpenAIError
  | APIStatusError => Some APIError
  | APIConnectionError => Some APIError
  | APITimeoutError => Some APIConnectionError
  | RateLimitError => Some APIStatusError
  | ProviderError => Some Exception
  | ProviderTimeoutError => Some ProviderError
  | ProviderRateLimitError => Some ProviderError
  | ProviderConnectionError => Some ProviderError
  | BudgetExceededException => Some Exception
  | ToolExecutionError => Some Exception
  | ToolValidationError => Some ToolExecutionError
  | ToolNotFoundError => Some ToolExecutionError
  | UserException _ => Some Exception
  | UserBaseException _ => Some BaseException
  end.

(** The class and its ancestors, nearest first; no chain is longer than six. *)
Fixpoint ancestors (fuel : nat) (c : exc_class) : list exc_class :=
  c :: match fuel with
       | O => []
       | S n => match base c with
                | Some b => ancestors n b
                | None => []
                end
       end.

Definition issubclass (c d : exc_class) : bool :=
  bool_decide (d ∈ ancestors 6 c).

(** An f-string before rendering: literal text and the formatted values.
    [Flt spec x] is a float formatted with [spec] (the empty spec is
    [repr]); the digits are not computed. *)
Inductive piece :=
  | Lit (s : string)
  | Int (z : Z)
  | Flt (spec : string) (x : float).

Definition message := list piece.

(** An exception object: its class, [str(e)], the [status_code] attribute
    when it has one, and [__context__], the exception that was being handled
    when this one was raised. *)
Local Unset Elimination Schemes.
Inductive exn :=
  Exn (exc_type : exc_class) (str : message) (status_code : option Z)
      (context : option exn).
Local Set Elimination Schemes.

Definition exc_type (e : exn) : exc_class := let 'Exn c _ _ _ := e in c.
Definition str (e : exn) : message := let 'Exn _ m _ _ := e in m.
Definition status_code (e : exn) : option Z := let 'Exn _ _ s _ := e in s.
Definition context (e : exn) : option exn := let 'Exn _ _ _ x := e in x.

Definition isinstance (e : exn) (c : exc_class) : bool :=
  issubclass (exc_type e) c.

(** [C(msg)], not yet raised. *)
Definition new (c : exc_class) (msg : message) : exn := Exn c msg None None.

(** Raising [e] while [handled] is being handled sets [__context__]. *)
Definition during (handled : exn) (e : exn) : exn :=
  Exn (exc_type e) (str e) (status_code e) (Some handled).

(** The result of evaluating an expression or running a call. *)
Inductive outcome (A : Type) :=
  | Return (a : A)
  | Raise (e : exn).
Arguments Return {A} a.
Arguments Raise {A} e.

Definition bind {A B} (o : outcome A) (k : A -> outcome B) : outcome B :=
  match o with
  | Return a => k a
  | Raise e => Raise e
  end.

(** [obj.attr] on an object of class [cls] that has no such attribute. *)
Definition no_attribute (cls attr : string) : exn :=
  new AttributeError
    [Lit "'"; Lit cls; Lit "' object has no attribute '"; Lit attr; Lit "'"].

(** *** Numbers *)

(** Python [int] is [Z]; Python [float] is binary64, here the primitive
    floats.  A value of magnitude at least [2^1024 - 2^970] rounds to
    infinity, which the int-to-float conversions refuse. *)
Definition float_bound : Z := 2 ^ 1024 - 2 ^ 970.

Definition to_spec (z : Z) : spec_float :=
  match z with
  | Z0 => S754_zero false
  | Zpos p => S754_finite false p 0
  | Zneg p => S754_finite true p 0
  end.

(** The binary64 value nearest to [z], ties to even. *)
Definition nearest_float (z : Z) : float :=
  SF2Prim (binary_normalize prec emax z 0 false).

(** [float(z)], also the implicit conversion in [int * float]. *)
Definition float_of_int (z : Z) : outcome float :=
  if float_bound <=? Z.abs z
  then Raise (new OverflowError [Lit "int too large to convert to float"])
  else Return (nearest_float z).

(** [z * x] with [z : int] and [x : float]. *)
Definition int_mul_float (z : Z) (x : float) : outcome float :=
  bind (float_of_int z) (fun f => Return (f * x)%float).

(** [a / b] on two ints: the correctly rounded quotient. *)
Definition int_true_div (a b : Z) : outcome float :=
  if b =? 0
  then Raise (new ZeroDivisionError [Lit "division by zero"])
  else if float_bound * Z.abs b <=? Z.abs a
  then Raise (new OverflowError
                [Lit "integer division result too large for a float"])
  else Return (SF2Prim (SFdiv prec emax (to_spec a) (to_spec b))).

(** A number handed to [asyncio.sleep]. *)
Inductive number :=
  | I (z : Z)
  | F (x : float).

(** *** Dictionaries that remember insertion order *)

(** [dict] as a list of items in insertion order.  Assigning to a key that is
    present keeps its position. *)
Section Dict.
Context {V : Type}.

Definition dict := list (string * V).

Fixpoint get (d : dict) (k : string) : option V :=
  match d with
  | [] => None
  | (k', v) :: d' => if String.eqb k' k then Some v else get d' k
  end.

Fixpoint set (d : dict) (k : string) (v : V) : dict :=
  match d with
  | [] => [(k, v)]
  | (k', v') :: d' =>
      if String.eqb k' k then (k, v) :: d' else (k', v') :: set d' k v
  end.

Definition keys (d : dict) : list string := map fst d.
Definition values (d : dict) : list V := map snd d.

(** What every dictionary built from [{}] by assignments satisfies. *)
Definition well_formed (d : dict) : Prop := List.NoDup (keys d).
End Dict.
Arguments dict V : clear implicits.

End Py.

Import Py.

(* ===================================================================== *)
(** ** linkbay_ai/providers.py                                             *)
(* ===================================================================== *)

(** Modelled from the spec: [ProviderType] and the [ProviderConfig] of the
    current package are imported from [schemas.py] but not declared in the
    copy at hand.  A provider-type tag is an enum member with a string
    [value]; a configuration holds credentials, base endpoint, default model
    name, the tag, a priority and a timeout. *)
Record ProviderType := { value : string }.

(** Modelled from the spec: the [ProviderConfig] that [BaseProvider.__init__]
    reads [provider_type] from; the declaration in [schemas.py] has the
    first three fields only. *)
Record ProviderConfig := {
  api_key : string;
  base_url : string;
  default_model : string;
  provider_type : ProviderType;
  priority : Z;
  timeout : Z
}.

Module BaseProvider.

(** A provider object.  [request_count] and [error_count] are [None] while
    the object has no such attribute. *)
Record t := {
  class_name : string;
  config : ProviderConfig;
  name : string;
  request_count : option Z;
  error_count : option Z
}.

(** [BaseProvider.__init__], run for an instance of the subclass
    [cls]: it binds [config] and [name] and nothing else. *)
Definition __init__ (cls : string) (cfg : ProviderConfig) : t :=
  {| class_name := cls;
     config := cfg;
     name := value (provider_type cfg);
     request_count := None;
     error_count := None |}.

Definition set_request_count (self : t) (n : Z) : t :=
  {| class_name := class_name self; config := config self; name := name self;
     request_count := Some n; error_count := error_count self |}.

Definition set_error_count (self : t) (n : Z) : t :=
  {| class_name := class_name self; config := config self; name := name self;
     request_count := request_count self; error_count := Some n |}.

(** What a retry-wrapped call does to the outside: it invokes the wrapped
    function and it sleeps. *)
Inductive event :=
  | Invoke
  | Sleep (seconds : number).

Section Retry.
(** [R]: what the wrapped function returns.  [C]: the state the wrapped
    callable carries from one invocation to the next. *)
Context {R C : Type}.
Variable func : C -> C * outcome R.

(** The locals of [_execute_with_retry] together with what it has done
    so far. *)
Record frame := {
  self : t;
  callee : C;
  last_exception : option exn;
  trace : list event
}.

Definition with_self (fr : frame) (s : t) : frame :=
  {| self := s; callee := callee fr;
     last_exception := last_exception fr; trace := trace fr |}.

Definition with_last (fr : frame) (e : exn) : frame :=
  {| self := self fr; callee := callee fr;
     last_exception := Some e; trace := trace fr |}.

Definition record (fr : frame) (ev : event) : frame :=
  {| self := self fr; callee := callee fr;
     last_exception := last_exception fr; trace := trace fr ++ [ev] |}.

(** How one pass through the loop body ends. *)
Inductive control :=
  | Next                 (* fall through to the next attempt *)
  | Break                (* [break] *)
  | Returned (r : R)     (* [return result] *)
  | Raised (e : exn).    (* an exception leaves the function *)

(** The [try] block: [self.request_count += 1], then the call. *)
Definition try_block (fr : frame) : frame * outcome R :=
  match request_count (self fr) with
  | None => (fr, Raise (no_attribute (class_name (self fr)) "request_count"))
  | Some n =>
      let fr1 := record (with_self fr (set_request_count (self fr) (n + 1)))
                        Invoke in
      let '(c, o) := func (callee fr1) in
      ({| self := self fr1; callee := c;
          last_exception := last_exception fr1; trace := trace fr1 |}, o)
  end.

(** [400 <= e.status_code < 500], guarded by [hasattr]. *)
Definition client_error (e : exn) : bool :=
  match status_code e with
  | Some s => (400 <=? s) && (s <? 500)
  | None => false
  end.

(** The [except] clauses, in their order. *)
Definition handlers (backoff_factor : float) (attempt : Z) (fr : frame)
    (e : exn) : frame * control :=
  if isinstance e RateLimitError then
    let fr1 := with_last fr
                 (new ProviderRateLimitError (Lit "Rate limit error: " :: str e)) in
    match int_mul_float (2 ^ attempt) backoff_factor with
    | Raise e' => (fr1, Raised (during e e'))
    | Return wait_time => (record fr1 (Sleep (F wait_time)), Next)
    end
  else if isinstance e APITimeoutError then
    let fr1 := with_last fr
                 (new ProviderTimeoutError (Lit "Timeout: " :: str e)) in
    (record fr1 (Sleep (I (2 ^ attempt))), Next)
  else if isinstance e APIConnectionError then
    let fr1 := with_last fr
                 (new ProviderConnectionError (Lit "Connection error: " :: str e)) in
    (record fr1 (Sleep (I (2 ^ attempt))), Next)
  else if isinstance e APIError then
    if client_error e
    then (fr, Raised (during e (new ProviderError (Lit "Client error: " :: str e))))
    else
      let fr1 := with_last fr
                   (new ProviderError (Lit "API error: " :: str e)) in
      (record fr1 (Sleep (I (2 ^ attempt))), Next)
  else if isinstance e Exception then
    (with_last fr (new ProviderError (Lit "Unexpected error: " :: str e)),
     Break)
  else (fr, Raised e).

(** One iteration of [for attempt in range(max_retries)]. *)
Definition attempt_body (backoff_factor : float) (attempt : Z) (fr : frame)
    : frame * control :=
  match try_block fr with
  | (fr1, Return result) => (fr1, Returned result)
  | (fr1, Raise e) => handlers backoff_factor attempt fr1 e
  end.

Fixpoint loop (backoff_factor : float) (attempts : list Z) (fr : frame)
    : frame * control :=
  match attempts with
  | [] => (fr, Next)
  | attempt :: rest =>
      match attempt_body backoff_factor attempt fr with
      | (fr1, Next) => loop backoff_factor rest fr1
      | stop => stop
      end
  end.

(** After the loop: [self.error_count += 1], then
    [raise last_exception or ProviderError(...)]. *)
Definition after_loop (fr : frame) : frame * outcome R :=
  match error_count (self fr) with
  | None => (fr, Raise (no_attribute (class_name (self fr)) "error_count"))
  | Some n =>
      (with_self fr (set_error_count (self fr) (n + 1)),
       Raise (match last_exception fr with
              | Some e => e
              | None => new ProviderError
                          [Lit "Provider "; Lit (name (self fr));
                           Lit " non disponibile"]
              end))
  end.

Definition _execute_with_retry (s : t) (c : C) (max_retries : Z)
    (backoff_factor : float) : frame * outcome R :=
  let fr0 := {| self := s; callee := c; last_exception := None; trace := [] |} in
  match loop backoff_factor (seqZ 0 max_retries) fr0 with
  | (fr, Returned result) => (fr, Return result)
  | (fr, Raised e) => (fr, Raise e)
  | (fr, Next) | (fr, Break) => after_loop fr
  end.

End Retry.
Arguments frame C : clear implicits.
Arguments control R : clear implicits.

(** The defaults of the signature. *)
Definition default_max_retries : Z := 3.
Definition default_backoff_factor : float := 1.5%float.

(** [_health_check] as the base class defines it. *)
Definition _health_check (self : t) : outcome bool := Return true.

(** [is_available]: [health_check] is the [_health_check] the object is
    bound to, the one above or an override. *)
Definition is_available (health_check : t -> outcome bool) (self : t)
    : outcome bool :=
  match health_check self with
  | Return available => Return available
  | Raise e => if isinstance e Exception then Return false else Raise e
  end.

Definition get_stats (self : t) : dict string := [("name", name self)].

End BaseProvider.

(** [DeepSeekProvider.chat] and [OpenAIProvider.chat] of this file: both
    hand the closure [_call], which sends the request and builds the
    response, to [_execute_with_retry] with its default parameters, and
    re-raise what it raises. *)
Module RemoteProvider.

Definition chat {R C : Type} (_call : C -> C * outcome R)
    (self : BaseProvider.t) (backend : C)
    : BaseProvider.frame C * outcome R :=
  match BaseProvider._execute_with_retry _call self backend
          BaseProvider.default_max_retries
          BaseProvider.default_backoff_factor with
  | (fr, Return response) => (fr, Return response)
  | (fr, Raise e) =>
      if isinstance e ProviderError
      then (fr, Raise e)          (* logged, then [raise] *)
      else (fr, Raise e)
  end.

End RemoteProvider.

(* ===================================================================== *)
(** ** linkbay_ai/schemas.py                                               *)
(* ===================================================================== *)

Module schemas.

Record ProviderConfig := {
  api_key : string;
  base_url : string;
  default_model : string
}.

Record GenerationParams := {
  model : string;
  max_tokens : Z;
  stream : bool;
  temperature : float
}.

(** [GenerationParams(model=m)]: the other fields take their defaults. *)
Definition GenerationParams_of_model (m : string) : GenerationParams :=
  {| model := m; max_tokens := 1000; stream := false;
     temperature := 0.7%float |}.

End schemas.

(* ===================================================================== *)
(** ** linkbay-ai/providers.py                                             *)
(* ===================================================================== *)

Module DeepSeekProvider.
Import schemas.

(** The keyword arguments of [client.chat.completions.create]. *)
Record request := {
  req_model : string;
  req_messages : list (string * string);   (* role, content *)
  req_max_tokens : Z;
  req_temperature : float;
  req_stream : bool
}.

(** A provider object.  [client] is the backend: what sending the request
    and reading [response.choices[0].message.content] comes to. *)
Record t := {
  config : ProviderConfig;
  client : request -> outcome string
}.

Definition chat (self : t) (prompt : string) (params : option GenerationParams)
    : outcome string :=
  let params := match params with
                | None => GenerationParams_of_model (default_model (config self))
                | Some p => p
                end in
  match client self {| req_model := model params;
                       req_messages := [("user", prompt)];
                       req_max_tokens := max_tokens params;
                       req_temperature := temperature params;
                       req_stream := stream params |} with
  | Return content => Return content
  | Raise e =>
      if isinstance e Exception
      then Raise (during e (new Exception (Lit "DeepSeek API error: " :: str e)))
      else Raise e
  end.

End DeepSeekProvider.

(* ===================================================================== *)
(** ** linkbay_ai/core.py                                                  *)
(* ===================================================================== *)

Module AIOrchestrator.
Import schemas.

Section Orchestrator.
(** The orchestrator only ever calls [provider.chat(prompt, params)]:
    [P] is the type of provider objects, [Resp] what their [chat]
    returns, [provider_chat] that call. *)
Context {P Resp : Type}.
Variable provider_chat : P -> string -> GenerationParams -> outcome Resp.

Record history_entry := {
  h_prompt : string;
  h_model : string;
  h_response : Resp
}.

Record t := {
  providers : dict P;
  request_history : list history_entry
}.

Definition __init__ : t := {| providers := []; request_history := [] |}.

Definition register_provider (self : t) (name : string) (provider : P) : t :=
  {| providers := set (providers self) name provider;
     request_history := request_history self |}.

(** What a call of [chat] leaves behind: the orchestrator, the keys of the
    providers whose [chat] was invoked, in order, and the result. *)
Record chat_result := {
  after : t;
  contacted : list string;
  result : outcome Resp
}.

Definition chat (self : t) (prompt : string) (model : string) : chat_result :=
  match providers self with
  | [] =>
      {| after := self; contacted := [];
         result := Raise (new ValueError [Lit "No AI providers configured"]) |}
  | (key, provider) :: _ =>            (* list(self.providers.values())[0] *)
      let params := GenerationParams_of_model model in
      match provider_chat provider prompt params with
      | Raise e => {| after := self; contacted := [key]; result := Raise e |}
      | Return response =>
          {| after := {| providers := providers self;
                         request_history :=
                           request_history self ++
                           [{| h_prompt := prompt; h_model := model;
                               h_response := response |}] |};
             contacted := [key];
             result := Return response |}
      end
  end.

Definition default_model_name : string := "deepseek-chat".

(** [len([r for r in self.request_history if r["model"] == m])]. *)
Definition requests_for (m : string) (self : t) : Z :=
  Z.of_nat (length (List.filter (fun r => String.eqb (h_model r) m)
                                (request_history self))).

Record analytics := {
  total_requests : Z;
  models_used : dict Z
}.

Definition get_analytics (self : t) : analytics :=
  {| total_requests := Z.of_nat (length (request_history self));
     models_used :=
       [("deepseek-chat", requests_for "deepseek-chat" self);
        ("deepseek-reasoning", requests_for "deepseek-reasoning" self)] |}.
End Orchestrator.
Arguments history_entry Resp : clear implicits.
Arguments t P Resp : clear implicits.
Arguments chat_result P Resp : clear implicits.

End AIOrchestrator.

(* ===================================================================== *)
(** ** linkbay-ai/utils.py                                                 *)
(* ===================================================================== *)

Module utils.

(** A JSON value, as [json.loads] returns it. *)
Local Unset Elimination Schemes.
Inductive json :=
  | JNull
  | JBool (b : bool)
  | JNumber (literal : string)
  | JString (s : string)
  | JArray (items : list json)
  | JObject (members : list (string * json)).
Local Set Elimination Schemes.

Definition newline : string := String (Ascii.ascii_of_nat 10) EmptyString.
Definition quote : string := String (Ascii.ascii_of_nat 34) EmptyString.

(** [sep.join(items)]. *)
Fixpoint join (sep : string) (items : list string) : string :=
  match items with
  | [] => EmptyString
  | [x] => x
  | x :: rest => (x ++ sep ++ join sep rest)%string
  end.

(** The text of a triple-quoted f-string, line by line. *)
Definition lines (ls : list string) : string := join newline ls.

Section Utils.
(** [P]: provider objects; [provider_chat]: their [chat], which returns the
    text of the completion.  [loads r] is what evaluating
    [json.loads(r.strip())] comes to. *)
Context {P : Type}.
Variable provider_chat : P -> string -> schemas.GenerationParams -> outcome string.
Variable loads : string -> outcome json.

Definition generate_html_tailwind (ai : AIOrchestrator.t P string)
    (description : string) : AIOrchestrator.chat_result P string :=
  let prompt := lines
    [EmptyString;
     ("    Genera codice HTML con Tailwind CSS per: " ++ description)%string;
     "    Restituisci SOLO il codice HTML, senza commenti o spiegazioni.";
     "    Usa classi Tailwind per lo styling.";
     "    "] in
  AIOrchestrator.chat provider_chat ai prompt "deepseek-chat".

Definition _parse_json_response (response : string) : json :=
  match loads response with
  | Return parsed => parsed
  | Raise _ =>                              (* a bare [except:] *)
      JObject [("error", JString "Failed to parse AI response as JSON")]
  end.

(** What [fill_form_fields] leaves behind: the orchestrator and the value
    returned or exception raised. *)
Definition fill_form_fields (ai : AIOrchestrator.t P string)
    (user_input : string) (fields : list string)
    : AIOrchestrator.t P string * outcome json :=
  let prompt := lines
    [EmptyString;
     ("    Dall'input utente: " ++ quote ++ user_input ++ quote)%string;
     ("    Estrai i valori per questi campi: " ++ join ", " fields)%string;
     ("    Restituisci SOLO un JSON con chiavi: " ++ join ", " fields)%string;
     "    Per campi non trovati, usa null.";
     "    "] in
  let r := AIOrchestrator.chat provider_chat ai prompt "deepseek-chat" in
  match AIOrchestrator.result r with
  | Raise e => (AIOrchestrator.after r, Raise e)
  | Return response =>
      (AIOrchestrator.after r, Return (_parse_json_response response))
  end.

Definition analyze_sales_data (ai : AIOrchestrator.t P string)
    (csv_data : string) : AIOrchestrator.chat_result P string :=
  let prompt := lines
    [EmptyString;
     "    Analizza questi dati di vendita e fornisci insights:";
     ("    " ++ csv_data)%string;
     "    ";
     "    Cerca:";
     "    - Andamento vendite";
     "    - Prodotti top";
     "    - Suggerimenti miglioramento";
     "    "] in
  AIOrchestrator.chat provider_chat ai prompt "deepseek-reasoning".

Definition analyze_traffic_data (ai : AIOrchestrator.t P string)
    (log_data : string) : AIOrchestrator.chat_result P string :=
  let prompt := lines
    [EmptyString;
     "    Analizza questi dati di traffico:";
     ("    " ++ log_data)%string;
     "    ";
     "    Cerca:";
     "    - Picchi di traffico";
     "    - Pagine più visitate";
     "    - Problemi prestazioni";
     "    "] in
  AIOrchestrator.chat provider_chat ai prompt "deepseek-reasoning".
End Utils.

End utils.

(* ===================================================================== *)
(** ** linkbay_ai/cost_controller.py                                       *)
(* ===================================================================== *)

(** Modelled from the spec: [BudgetConfig] is imported from [schemas.py] but
    not declared in the copy at hand.  It holds the maximum tokens per hour,
    the maximum tokens per day, the maximum monetary cost per hour and the
    alert threshold, a fraction of the hourly limit. *)
Record BudgetConfig := {
  max_tokens_per_hour : Z;
  max_tokens_per_day : Z;
  max_cost_per_hour : float;
  alert_threshold : float
}.

Module CostController.

Record t := {
  config : BudgetConfig;
  hourly_usage : gmap string Z;
  daily_usage : gmap string Z;
  hourly_cost : gmap string float;
  token_costs : gmap string float
}.

Definition __init__ (cfg : BudgetConfig) : t :=
  {| config := cfg;
     hourly_usage := ∅;
     daily_usage := ∅;
     hourly_cost := ∅;
     token_costs :=
       <["deepseek-chat" := (0.14 / 1000000)%float]>
       (<["deepseek-reasoner" := (0.55 / 1000000)%float]>
       (<["gpt-3.5-turbo" := (0.5 / 1000000)%float]>
       (<["gpt-4" := (30.0 / 1000000)%float]> ∅))) |}.

(** What the wall clock yields during one call: the strings that
    [datetime.now().strftime] produces for the current hour and day, and for
    [now - timedelta(hours=2)] and [now - timedelta(days=2)]. *)
Record clock := {
  hour_key : string;
  day_key : string;
  hour_threshold : string;
  day_threshold : string
}.

(** [k > threshold] on two [str]. *)
Definition newer (threshold : string) (k : string) : bool :=
  String.ltb threshold k.

Definition _cleanup_old_entries (now : clock) (self : t) : t :=
  {| config := config self;
     hourly_usage :=
       filter (λ kv, newer (hour_threshold now) kv.1 = true) (hourly_usage self);
     daily_usage :=
       filter (λ kv, newer (day_threshold now) kv.1 = true) (daily_usage self);
     hourly_cost :=
       filter (λ kv, newer (hour_threshold now) kv.1 = true) (hourly_cost self);
     token_costs := token_costs self |}.

(** [d.get(k, 0)], [d.get(k, 0.0)] and [token_costs.get(model, 0.001)]. *)
Definition tokens_at (d : gmap string Z) (k : string) : Z := default 0 (d !! k).
Definition cost_at (d : gmap string float) (k : string) : float :=
  default 0%float (d !! k).
Definition unit_price (self : t) (model : string) : float :=
  default 0.001%float (token_costs self !! model).

(** The outcome of [check_budget]: the controller afterwards, whether the
    alert threshold was passed, and the value returned or exception raised. *)
Record checked := {
  state : t;
  alert : bool;
  result : outcome bool
}.

Definition stop (self : t) (e : exn) : checked :=
  {| state := self; alert := false; result := Raise e |}.

Definition check_budget (now : clock) (self : t) (estimated_tokens : Z)
    (model : string) : checked :=
  let limit := max_tokens_per_hour (config self) in
  if estimated_tokens <? 0 then
    stop self (new ValueError [Lit "estimated_tokens deve essere positivo"])
  else if limit <? estimated_tokens then
    stop self (new ValueError
                 [Lit "Richiesta supera il limite orario massimo (";
                  Int limit; Lit ")"])
  else
    let self := _cleanup_old_entries now self in
    let current_hourly := tokens_at (hourly_usage self) (hour_key now) in
    if limit <? current_hourly + estimated_tokens then
      stop self (new BudgetExceededException
                   [Lit "Budget orario superato: ";
                    Int (current_hourly + estimated_tokens); Lit " / ";
                    Int limit])
    else
      let current_daily := tokens_at (daily_usage self) (day_key now) in
      if max_tokens_per_day (config self) <? current_daily + estimated_tokens then
        stop self (new BudgetExceededException
                     [Lit "Budget giornaliero superato: ";
                      Int (current_daily + estimated_tokens); Lit " / ";
                      Int (max_tokens_per_day (config self))])
      else
        match int_mul_float estimated_tokens (unit_price self model) with
        | Raise e => stop self e
        | Return estimated_cost =>
            let current_cost := cost_at (hourly_cost self) (hour_key now) in
            if (max_cost_per_hour (config self) <? current_cost + estimated_cost)%float
            then
              stop self (new BudgetExceededException
                           [Lit "Budget costi orario superato: $";
                            Flt ".4f" (current_cost + estimated_cost)%float;
                            Lit " / $";
                            Flt "" (max_cost_per_hour (config self))])
            else
              match int_true_div (current_hourly + estimated_tokens) limit with
              | Raise e => stop self e
              | Return hourly_percent =>
                  {| state := self;
                     alert := (alert_threshold (config self) <? hourly_percent)%float;
                     result := Return true |}
              end
        end.

Definition record_usage (now : clock) (self : t) (tokens_used : Z)
    (model : string) : t * outcome unit :=
  let hourly := <[hour_key now :=
                    tokens_at (hourly_usage self) (hour_key now) + tokens_used]>
                (hourly_usage self) in
  let daily := <[day_key now :=
                   tokens_at (daily_usage self) (day_key now) + tokens_used]>
               (daily_usage self) in
  match int_mul_float tokens_used (unit_price self model) with
  | Raise e =>
      ({| config := config self; hourly_usage := hourly; daily_usage := daily;
          hourly_cost := hourly_cost self; token_costs := token_costs self |},
       Raise e)
  | Return cost =>
      ({| config := config self; hourly_usage := hourly; daily_usage := daily;
          hourly_cost :=
            <[hour_key now :=
                (cost_at (hourly_cost self) (hour_key now) + cost)%float]>
            (hourly_cost self);
          token_costs := token_costs self |},
       Return tt)
  end.

Record hourly_stats := {
  h_tokens : Z;
  h_limit : Z;
  h_percent : float;
  h_cost : float;
  h_cost_limit : float
}.

Record daily_stats := {
  d_tokens : Z;
  d_limit : Z;
  d_percent : float
}.

Record usage := {
  hourly : hourly_stats;
  daily : daily_stats
}.

(** [(tokens / limit) * 100]. *)
Definition percent (tokens limit : Z) : outcome float :=
  bind (int_true_div tokens limit) (fun q => Return (q * 100)%float).

Definition get_current_usage (now : clock) (self : t) : outcome usage :=
  let hourly_tokens := tokens_at (hourly_usage self) (hour_key now) in
  let daily_tokens := tokens_at (daily_usage self) (day_key now) in
  let hourly_cost := cost_at (hourly_cost self) (hour_key now) in
  bind (percent hourly_tokens (max_tokens_per_hour (config self))) (fun hp =>
  bind (percent daily_tokens (max_tokens_per_day (config self))) (fun dp =>
  Return {| hourly := {| h_tokens := hourly_tokens;
                         h_limit := max_tokens_per_hour (config self);
                         h_percent := hp;
                         h_cost := hourly_cost;
                         h_cost_limit := max_cost_per_hour (config self) |};
            daily := {| d_tokens := daily_tokens;
                        d_limit := max_tokens_per_day (config self);
                        d_percent := dp |} |})).

Definition reset_budgets (self : t) : t :=
  {| config := config self; hourly_usage := ∅; daily_usage := ∅;
     hourly_cost := ∅; token_costs := token_costs self |}.

Definition default_model : string := "deepseek-chat".

End CostController.

(* ===================================================================== *)
(** ** linkbay_ai/tools.py                                                 *)
(* ===================================================================== *)

Module ToolsManager.

Section Tools.
(** [V]: the Python values exchanged with tool handlers.  [J]: JSON
    schemas. *)
Context {V J : Type}.

(** Modelled from the spec: [ToolCall] is imported from [schemas.py] but
    not declared in the copy at hand.  A tool call is a name and a mapping
    of arguments. *)
Record ToolCall := {
  name : string;
  arguments : dict V
}.

(** A registered callable: applied to the keyword arguments and awaited,
    it returns a value or raises. *)
Definition handler := dict V -> outcome V.

(** One entry of [tool_definitions]:
    [{"type": "function", "function": {"name": .., "description": ..,
    "parameters": ..}}]. *)
Record function_def := {
  fn_name : string;
  fn_description : string;
  fn_parameters : J
}.

Record tool_def := {
  type : string;
  function : function_def
}.

Record t := {
  tools : dict handler;
  tool_definitions : list tool_def
}.

Definition __init__ : t := {| tools := []; tool_definitions := [] |}.

Definition register_tool (self : t) (name : string) (function : handler)
    (description : string) (parameters : J) : t :=
  let tool_def :=
    {| type := "function";
       function := {| fn_name := name; fn_description := description;
                      fn_parameters := parameters |} |} in
  {| tools := set (tools self) name function;
     tool_definitions := tool_definitions self ++ [tool_def] |}.

Definition get_tool_definitions (self : t) : list tool_def :=
  tool_definitions self.

Definition execute_tool (self : t) (tool_call : ToolCall) : outcome V :=
  match get (tools self) (name tool_call) with
  | None =>
      Raise (new ToolExecutionError
               [Lit "Tool non trovato: "; Lit (name tool_call)])
  | Some function =>
      match function (arguments tool_call) with
      | Return result => Return result
      | Raise e =>
          if isinstance e Exception
          then Raise (during e
                        (new ToolExecutionError
                           (Lit "Errore esecuzione " ::
                            Lit (name tool_call) :: Lit ": " :: str e)))
          else Raise e
      end
  end.

Definition list_tools (self : t) : list string := keys (tools self).
End Tools.
Arguments ToolCall V : clear implicits.
Arguments handler V : clear implicits.
Arguments function_def J : clear implicits.
Arguments tool_def J : clear implicits.
Arguments t V J : clear implicits.

End ToolsManager.

(** *** The predefined tools *)

Module CommonTools.

(** The arguments of these functions are inspected character by character:
    a [str] is here the list of its code points. *)
Definition text := list Z.

Definition text_of (s : string) : text :=
  map (fun a => Z.of_nat (Ascii.nat_of_ascii a)) (list_ascii_of_string s).

(** [c.isspace()], which is also what [str.strip] removes and what [\s]
    matches. *)
Definition isspace (c : Z) : bool :=
  ((9 <=? c) && (c <=? 13)) || ((28 <=? c) && (c <=? 32))
  || (c =? 133) || (c =? 160) || (c =? 5760)
  || ((8192 <=? c) && (c <=? 8202))
  || (c =? 8232) || (c =? 8233) || (c =? 8239) || (c =? 8287)
  || (c =? 12288).

(** [not s or not s.strip()]. *)
Definition blank (s : text) : bool := forallb isspace s.

Record product := {
  id : Z;
  name : text;
  price : float;
  category : text
}.

Definition search_products (query : text) (category : option text)
    (max_results : Z) : outcome (list product) :=
  if blank query then
    Raise (new ValueError [Lit "Query di ricerca obbligatoria"])
  else if (max_results <? 1) || (100 <? max_results) then
    Raise (new ValueError [Lit "max_results deve essere tra 1 e 100"])
  else
    Return [{| id := 1;
               name := text_of "Prodotto per " ++ query;
               price := 99.99;
               category := match category with
                           | Some (c :: cs) => c :: cs
                           | Some [] | None => text_of "generale"
                           end |}].

Section Calculate.
(** [V]: Python values.  [is_decimal] is the table of Unicode decimal
    digits that [\d] matches; [eval] is
    [eval(expression, {"__builtins__": {}}, {})] and [float_of] is [float]. *)
Context {V : Type}.
Variable is_decimal : Z -> bool.
Variable eval : text -> outcome V.
Variable float_of : V -> outcome float.

(** A character of the class [[\d\s\+\-\*\/\(\)\.]]. *)
Definition allowed (c : Z) : bool :=
  is_decimal c || isspace c
  || (c =? 43) || (c =? 45) || (c =? 42) || (c =? 47)
  || (c =? 40) || (c =? 41) || (c =? 46).

(** [re.match(r'^[...]+$', expression)]: one or more characters of the
    class up to the end; the newline that [$] tolerates at the end is itself
    in the class. *)
Definition permitted (expression : text) : bool :=
  match expression with
  | [] => false
  | _ :: _ => forallb allowed expression
  end.

(** What a call leaves behind: whether [eval] was reached, and the value
    returned or exception raised. *)
Record calculated := {
  evaluated : bool;
  result : outcome float
}.

(** The [except Exception as e] around the body. *)
Definition invalid (e : exn) : outcome float :=
  if isinstance e Exception
  then Raise (during e (new ValueError (Lit "Espressione non valida: " :: str e)))
  else Raise e.

Definition calculate (expression : text) : calculated :=
  if blank expression then
    {| evaluated := false;
       result := Raise (new ValueError [Lit "Espressione matematica obbligatoria"]) |}
  else if negb (permitted expression) then
    {| evaluated := false;
       result := invalid (new ValueError
                            [Lit "Espressione contiene caratteri non consentiti"]) |}
  else
    match eval expression with
    | Raise e => {| evaluated := true; result := invalid e |}
    | Return value =>
        match float_of value with
        | Raise e => {| evaluated := true; result := invalid e |}
        | Return x => {| evaluated := true; result := Return x |}
        end
    end.
End Calculate.

End CommonTools.

(* ===================================================================== *)
(** ** Vocabulary of the statements                                        *)
(* ===================================================================== *)

Module Retry.
Import BaseProvider.

(** The errors [_execute_with_retry] answers with a sleep and a further
    attempt. *)
Definition retryable (e : exn) : bool :=
  isinstance e RateLimitError
  || isinstance e APITimeoutError
  || isinstance e APIConnectionError
  || (isinstance e APIError && negb (client_error e)).

(** A client-side error: an [APIError] other than a rate limit, a timeout
    or a connection failure, whose status is in the 4xx range. *)
Definition client_side (e : exn) : bool :=
  isinstance e APIError && negb (isinstance e RateLimitError)
  && negb (isinstance e APIConnectionError) && client_error e.

(** Any other failure deriving from [Exception]. *)
Definition unexpected (e : exn) : bool :=
  isinstance e Exception && negb (isinstance e APIError).

(** The provider-level error kept as [last_exception] for a retryable or
    unexpected [e]. *)
Definition provider_error_for (e : exn) : exn :=
  if isinstance e RateLimitError then
    new ProviderRateLimitError (Lit "Rate limit error: " :: str e)
  else if isinstance e APITimeoutError then
    new ProviderTimeoutError (Lit "Timeout: " :: str e)
  else if isinstance e APIConnectionError then
    new ProviderConnectionError (Lit "Connection error: " :: str e)
  else if isinstance e APIError then
    new ProviderError (Lit "API error: " :: str e)
  else new ProviderError (Lit "Unexpected error: " :: str e).

(** The sleep that follows a retryable [e] on attempt number [attempt]. *)
Definition backoff (backoff_factor : float) (attempt : Z) (e : exn) : number :=
  if isinstance e RateLimitError
  then F (nearest_float (2 ^ attempt) * backoff_factor)%float
  else I (2 ^ attempt).

(** How often the wrapped function was invoked. *)
Definition invocations (tr : list event) : nat :=
  length (List.filter
            (fun ev => match ev with Invoke => true | Sleep _ => false end) tr).

(** The sleeps of a trace, in order. *)
Definition sleeps (tr : list event) : list number :=
  omap (fun ev => match ev with Invoke => None | Sleep d => Some d end) tr.

Section Callee.
Context {R C : Type}.
Variable func : C -> C * outcome R.

(** The state of the callable after [k] invocations, and the outcome of
    invocation number [k] (from 0). *)
Fixpoint state_after (k : nat) (c : C) : C :=
  match k with
  | O => c
  | S k' => state_after k' (func c).1
  end.

Definition outcome_of (k : nat) (c : C) : outcome R :=
  (func (state_after k c)).2.

(** Invocation number [k] fails with a retryable error. *)
Definition fails_retryably (k : nat) (c : C) : Prop :=
  exists e, outcome_of k c = Raise e /\ retryable e = true.

(** The sleeps that follow [len] failing attempts numbered from
    [attempt]. *)
Fixpoint pauses (backoff_factor : float) (attempt : Z) (len : nat) (c : C)
    : list number :=
  match len with
  | O => []
  | S len' =>
      match (func c).2 with
      | Raise e => [backoff backoff_factor attempt e]
      | Return _ => []
      end ++ pauses backoff_factor (attempt + 1) len' (func c).1
  end.
End Callee.

(** The frame after an attempt that invoked the function. *)
Definition attempted {C : Type} (fr : frame C) (n : Z) (c' : C) : frame C :=
  {| self := set_request_count (self fr) (n + 1); callee := c';
     last_exception := last_exception fr; trace := trace fr ++ [Invoke] |}.

(** A callable that plays back a list of outcomes, one per invocation. *)
Definition scripted {R : Type} (script : list (outcome R))
    : list (outcome R) * outcome R :=
  match script with
  | [] => ([], Raise (new (UserException "StopIteration") []))
  | o :: rest => (rest, o)
  end.

(** The configuration of the test suite's local provider, and the provider
    [LocalProvider(config)]. *)
Definition local_config : ProviderConfig :=
  {| api_key := "test"; base_url := "http://localhost";
     default_model := "deepseek-chat";
     provider_type := {| value := "local" |};
     priority := 1; timeout := 30 |}.

Definition local_provider : BaseProvider.t :=
  BaseProvider.__init__ "LocalProvider" local_config.

End Retry.

Module Scenario.

(** Two providers of the earlier package: the backend of [failing] answers
    every request with a rate-limit error, that of [succeeding] with a
    completion. *)
Definition provider_config : schemas.ProviderConfig :=
  {| schemas.api_key := "sk-test";
     schemas.base_url := "https://api.deepseek.com";
     schemas.default_model := "deepseek-chat" |}.

Definition rate_limit : exn :=
  Exn RateLimitError [Lit "rate limit reached"] (Some 429) None.

Definition failing : DeepSeekProvider.t :=
  {| DeepSeekProvider.config := provider_config;
     DeepSeekProvider.client := fun _ => Raise rate_limit |}.

Definition succeeding : DeepSeekProvider.t :=
  {| DeepSeekProvider.config := provider_config;
     DeepSeekProvider.client := fun _ => Return "pong" |}.

(** [provider.chat(prompt, params)] as the orchestrator calls it. *)
Definition provider_chat (p : DeepSeekProvider.t) (prompt : string)
    (params : schemas.GenerationParams) : outcome string :=
  DeepSeekProvider.chat p prompt (Some params).

(** An orchestrator after [register_provider] has been called for each
    item of [items], in order. *)
Definition orchestrator (items : list (string * DeepSeekProvider.t))
    : AIOrchestrator.t DeepSeekProvider.t string :=
  fold_left (fun o item => AIOrchestrator.register_provider o item.1 item.2)
            items AIOrchestrator.__init__.

Definition ask (o : AIOrchestrator.t DeepSeekProvider.t string)
    : AIOrchestrator.chat_result DeepSeekProvider.t string :=
  AIOrchestrator.chat provider_chat o "ping" AIOrchestrator.default_model_name.

(** The definitions in [tool_definitions] that bear [name]. *)
Definition bearing {J : Type} (name : string)
    (defs : list (ToolsManager.tool_def J)) : list (ToolsManager.tool_def J) :=
  List.filter
    (fun d => String.eqb (ToolsManager.fn_name (ToolsManager.function d)) name)
    defs.

(** What [execute_tool] makes of the outcome of a handler. *)
Definition surfaced {V : Type} (name : string) (o : outcome V) : outcome V :=
  match o with
  | Return result => Return result
  | Raise e =>
      if isinstance e Exception
      then Raise (during e
                    (new ToolExecutionError
                       (Lit "Errore esecuzione " :: Lit name :: Lit ": "
                          :: str e)))
      else Raise e
  end.

(** A reading of the clock on 3 November 2026, shortly after ten. *)
Definition morning : CostController.clock :=
  {| CostController.hour_key := "2026-11-03-10";
     CostController.day_key := "2026-11-03";
     CostController.hour_threshold := "2026-11-03-08";
     CostController.day_threshold := "2026-11-01" |}.

(** [BudgetConfig(max_tokens_per_hour=limit, ...)]. *)
Definition budget (limit : Z) : BudgetConfig :=
  {| max_tokens_per_hour := limit;
     max_tokens_per_day := 1000000;
     max_cost_per_hour := 10;
     alert_threshold := 0.8 |}.

(** The clock is sane when the current keys are newer than the
    thresholds of the clean-up. *)
Definition sane (now : CostController.clock) : Prop :=
  CostController.newer (CostController.hour_threshold now)
                       (CostController.hour_key now) = true
  /\ CostController.newer (CostController.day_threshold now)
                          (CostController.day_key now) = true.

(** A run of [record_usage] calls, each with its reading of the clock, its
    token count and its model; an exception raised by one call is caught by
    the caller. *)
Definition record_all (calls : list (CostController.clock * Z * string))
    (self : CostController.t) : CostController.t :=
  fold_left (fun st call =>
               (CostController.record_usage call.1.1 st call.1.2 call.2).1)
            calls self.

Definition total (calls : list (CostController.clock * Z * string)) : Z :=
  fold_right Z.add 0 (map (fun call => call.1.2) calls).

End Scenario.

Module Run.

(** [LocalProvider(config)] once both counters have been given the value 0
    from outside. *)
Definition counted_provider : BaseProvider.t :=
  BaseProvider.set_error_count
    (BaseProvider.set_request_count Retry.local_provider 0) 0.

Definition timeout_error : exn := Exn APITimeoutError [Lit "timed out"] None None.
Definition bad_request : exn := Exn APIStatusError [Lit "bad request"] (Some 400) None.
Definition cancelled : exn := Exn CancelledError [] None None.

Section Orchestrators.
Context {P Resp : Type}.
Variable provider_chat : P -> string -> schemas.GenerationParams -> outcome Resp.

(** The orchestrator after [register_provider(name, provider)] for each
    item, in order. *)
Definition register_all (items : list (string * P))
    (self : AIOrchestrator.t P Resp) : AIOrchestrator.t P Resp :=
  fold_left (fun o item => AIOrchestrator.register_provider o item.1 item.2)
            items self.

(** The provider last registered under [name], [p] if there is none. *)
Definition latest (name : string) (items : list (string * P)) (p : P) : P :=
  fold_left (fun acc item => if String.eqb item.1 name then item.2 else acc)
            items p.

(** A run of [chat(prompt, model)] calls; the caller catches what a call
    raises.  [chat_all] is the orchestrator afterwards, [answered] the calls
    that returned. *)
Fixpoint chat_all (calls : list (string * string))
    (self : AIOrchestrator.t P Resp) : AIOrchestrator.t P Resp :=
  match calls with
  | [] => self
  | (prompt, model) :: rest =>
      chat_all rest
        (AIOrchestrator.after (AIOrchestrator.chat provider_chat self prompt model))
  end.

Fixpoint answered (calls : list (string * string))
    (self : AIOrchestrator.t P Resp) : list (string * string) :=
  match calls with
  | [] => []
  | (prompt, model) :: rest =>
      let r := AIOrchestrator.chat provider_chat self prompt model in
      match AIOrchestrator.result r with
      | Return _ => [(prompt, model)]
      | Raise _ => []
      end ++ answered rest (AIOrchestrator.after r)
  end.

(** How many of [calls] asked for [model]. *)
Definition asking (model : string) (calls : list (string * string)) : Z :=
  Z.of_nat (length (List.filter (fun c => String.eqb c.2 model) calls)).

(** What a call [r] of [chat] for the model [m] does to the counts of the
    analytics of [ai]: one more under [m] and in total when it returned,
    nothing when it raised. *)
Definition counted_under (m : string) (ai : AIOrchestrator.t P Resp)
    (r : AIOrchestrator.chat_result P Resp) : Prop :=
  match AIOrchestrator.result r with
  | Return _ =>
      AIOrchestrator.requests_for m (AIOrchestrator.after r)
      = AIOrchestrator.requests_for m ai + 1
      /\ (forall m', m' <> m ->
             AIOrchestrator.requests_for m' (AIOrchestrator.after r)
             = AIOrchestrator.requests_for m' ai)
      /\ AIOrchestrator.total_requests
           (AIOrchestrator.get_analytics (AIOrchestrator.after r))
         = AIOrchestrator.total_requests (AIOrchestrator.get_analytics ai) + 1
  | Raise _ => AIOrchestrator.after r = ai
  end.
End Orchestrators.

(** The operations of a cost controller. *)
Inductive operation :=
  | Check (now : CostController.clock) (estimated_tokens : Z) (model : string)
  | Record (now : CostController.clock) (tokens_used : Z) (model : string)
  | Reset.

Definition apply (self : CostController.t) (op : operation) : CostController.t :=
  match op with
  | Check now estimated_tokens model =>
      CostController.state
        (CostController.check_budget now self estimated_tokens model)
  | Record now tokens_used model =>
      (CostController.record_usage now self tokens_used model).1
  | Reset => CostController.reset_budgets self
  end.

Definition apply_all (ops : list operation) (self : CostController.t)
    : CostController.t :=
  fold_left apply ops self.

(** One call of [register_tool]. *)
Record registration (V J : Type) := {
  reg_name : string;
  reg_function : ToolsManager.handler V;
  reg_description : string;
  reg_parameters : J
}.
Arguments reg_name {V J} _.
Arguments reg_function {V J} _.
Arguments reg_description {V J} _.
Arguments reg_parameters {V J} _.

Definition register {V J : Type} (m : ToolsManager.t V J)
    (r : registration V J) : ToolsManager.t V J :=
  ToolsManager.register_tool m (reg_name r) (reg_function r)
    (reg_description r) (reg_parameters r).

(** The manager after the given calls of [register_tool] on a new one. *)
Definition built {V J : Type} (rs : list (registration V J))
    : ToolsManager.t V J :=
  fold_left register rs ToolsManager.__init__.

(** The handler last registered under [name]. *)
Definition last_handler {V J : Type} (name : string)
    (rs : list (registration V J)) : option (ToolsManager.handler V) :=
  fold_left (fun acc r => if String.eqb (reg_name r) name
                          then Some (reg_function r) else acc)
            rs None.

(** A reading of the clock three hours before [Scenario.morning]. *)
Definition dawn : CostController.clock :=
  {| CostController.hour_key := "2026-11-03-07";
     CostController.day_key := "2026-11-03";
     CostController.hour_threshold := "2026-11-03-05";
     CostController.day_threshold := "2026-11-01" |}.

(** A controller with a ceiling of 1000 tokens per hour on which 900 tokens
    were recorded at [Scenario.morning], and one on which 50 tokens were
    recorded at [dawn]. *)
Definition busy : CostController.t :=
  (CostController.record_usage Scenario.morning
     (CostController.__init__ (Scenario.budget 1000)) 900
     CostController.default_model).1.

Definition early : CostController.t :=
  (CostController.record_usage dawn
     (CostController.__init__ (Scenario.budget 1000)) 50
     CostController.default_model).1.

(** The way the controller is meant to be used, as the tests of the
    package use it: [await check_budget(tokens, model)] and, when that
    returned, [record_usage(tokens, model)], both within the same hour and
    day.  When the check raises, the caller catches it and nothing is
    recorded. *)
Definition guarded (self : CostController.t)
    (step : CostController.clock * Z * string) : CostController.t :=
  let r := CostController.check_budget step.1.1 self step.1.2 step.2 in
  match CostController.result r with
  | Return _ =>
      (CostController.record_usage step.1.1 (CostController.state r)
         step.1.2 step.2).1
  | Raise _ => CostController.state r
  end.

Definition guarded_all (steps : list (CostController.clock * Z * string))
    (self : CostController.t) : CostController.t :=
  fold_left guarded steps self.

(** The definition that one call of [register_tool] appends. *)
Definition definition_of {V J : Type} (r : registration V J)
    : ToolsManager.tool_def J :=
  {| ToolsManager.type := "function";
     ToolsManager.function :=
       {| ToolsManager.fn_name := reg_name r;
          ToolsManager.fn_description := reg_description r;
          ToolsManager.fn_parameters := reg_parameters r |} |}.

End Run.

(* ===================================================================== *)
(** ** The retry wrapper                                                   *)
(* ===================================================================== *)

Section RetryFacts.
Import BaseProvider Retry.
Context {R C : Type}.
Variable func : C -> C * outcome R.

Lemma no_attribute_is_unexpected cls attr :
  isinstance (no_attribute cls attr) RateLimitError = false
  /\ isinstance (no_attribute cls attr) APITimeoutError = false
  /\ isinstance (no_attribute cls attr) APIConnectionError = false
  /\ isinstance (no_attribute cls attr) APIError = false
  /\ isinstance (no_attribute cls attr) Exception = true.
Proof. repeat split; reflexivity. Qed.

(** Without a [request_count] attribute the first pass through the loop
    body breaks out of the loop before the wrapped function is invoked. *)
Lemma attempt_without_request_count backoff_factor attempt (fr : frame C) :
  request_count (self fr) = None ->
  attempt_body func backoff_factor attempt fr =
    (with_last fr
       (new ProviderError
          (Lit "Unexpected error: "
             :: str (no_attribute (class_name (self fr)) "request_count"))),
     Break).
Proof.
  intros Hreq. unfold attempt_body, try_block. rewrite Hreq.
  reflexivity.
Qed.

(** A provider object without the two counters: every retry-wrapped call
    ends in the [AttributeError] of [self.error_count += 1], and the
    wrapped function is never invoked. *)
Lemma execute_with_retry_without_counters (s : t) (c : C) max_retries
    backoff_factor :
  request_count s = None ->
  error_count s = None ->
  let '(fr, res) := _execute_with_retry func s c max_retries backoff_factor in
  res = Raise (no_attribute (class_name s) "error_count")
  /\ trace fr = [] /\ callee fr = c /\ self fr = s.
Proof.
  intros Hreq Herr. unfold _execute_with_retry.
  destruct (seqZ 0 max_retries) as [|attempt rest]; simpl.
  - unfold after_loop; simpl. rewrite Herr. auto.
  - rewrite attempt_without_request_count by exact Hreq.
    unfold after_loop; simpl. rewrite Herr. auto.
Qed.
End RetryFacts.

(** *** With both counters in place *)

Lemma float_of_power_of_two (a : Z) :
  0 <= a < 1024 -> float_of_int (2 ^ a) = Return (nearest_float (2 ^ a)).
Proof.
  intros Ha. unfold float_of_int.
  assert (Hpow : 2 ^ a <= 2 ^ 1023) by (apply Z.pow_le_mono_r; lia).
  assert (Hbound : 2 ^ 1023 < float_bound) by (vm_compute; reflexivity).
  assert (Hpos : 0 <= 2 ^ a) by (apply Z.pow_nonneg; lia).
  rewrite Z.abs_eq by exact Hpos.
  destruct (Z.leb_spec float_bound (2 ^ a)) as [Hle|Hlt]; [lia | reflexivity].
Qed.

Section RetryWithCounters.
Import BaseProvider Retry.
Context {R C : Type}.
Variable func : C -> C * outcome R.
Variable backoff_factor : float.

Lemma try_block_invokes (fr : frame C) n :
  request_count (self fr) = Some n ->
  try_block func fr =
    (attempted fr n (func (callee fr)).1, (func (callee fr)).2).
Proof.
  intros Hreq. unfold try_block. rewrite Hreq. simpl.
  destruct (func (callee fr)) as [c' o]. reflexivity.
Qed.

(** A retryable failure: the provider-level error is remembered, the
    wrapper sleeps and goes on to the next attempt. *)
Lemma attempt_retryable (fr : frame C) n attempt e :
  request_count (self fr) = Some n ->
  (func (callee fr)).2 = Raise e ->
  retryable e = true ->
  0 <= attempt < 1024 ->
  attempt_body func backoff_factor attempt fr =
    (record (with_last (attempted fr n (func (callee fr)).1)
                       (provider_error_for e))
            (Sleep (backoff backoff_factor attempt e)),
     Next).
Proof.
  intros Hreq Hout Hretry Ha. unfold attempt_body.
  rewrite (try_block_invokes fr n Hreq), Hout.
  unfold handlers, provider_error_for, backoff, retryable in *.
  destruct (isinstance e RateLimitError).
  { unfold int_mul_float. rewrite float_of_power_of_two by exact Ha.
    reflexivity. }
  destruct (isinstance e APITimeoutError); [reflexivity|].
  destruct (isinstance e APIConnectionError); [reflexivity|].
  destruct (isinstance e APIError); [|discriminate].
  simpl in Hretry. destruct (client_error e); [discriminate | reflexivity].
Qed.

(** A client-side error leaves the function at once. *)
Lemma attempt_client_side (fr : frame C) n attempt e :
  request_count (self fr) = Some n ->
  (func (callee fr)).2 = Raise e ->
  client_side e = true ->
  attempt_body func backoff_factor attempt fr =
    (attempted fr n (func (callee fr)).1,
     Raised (during e (new ProviderError (Lit "Client error: " :: str e)))).
Proof.
  intros Hreq Hout Hclient. unfold attempt_body.
  rewrite (try_block_invokes fr n Hreq), Hout.
  unfold handlers, client_side in *.
  destruct (isinstance e RateLimitError);
    [rewrite andb_false_r in Hclient; discriminate|].
  destruct (isinstance e APIConnectionError) eqn:Hconn;
    [rewrite andb_false_r in Hclient; discriminate|].
  destruct (isinstance e APITimeoutError) eqn:Htime.
  { exfalso. clear - Hconn Htime. destruct e as [c m s x].
    unfold isinstance, issubclass in *; simpl in *.
    destruct c; try discriminate. }
  destruct (isinstance e APIError); [|discriminate].
  simpl in Hclient. rewrite Hclient. reflexivity.
Qed.

(** Any other failure deriving from [Exception] breaks out of the loop. *)
Lemma attempt_unexpected (fr : frame C) n attempt e :
  request_count (self fr) = Some n ->
  (func (callee fr)).2 = Raise e ->
  unexpected e = true ->
  attempt_body func backoff_factor attempt fr =
    (with_last (attempted fr n (func (callee fr)).1) (provider_error_for e),
     Break).
Proof.
  intros Hreq Hout Hun. unfold attempt_body.
  rewrite (try_block_invokes fr n Hreq), Hout.
  unfold handlers, provider_error_for, unexpected in *.
  destruct (isinstance e Exception) eqn:Hexc; [|discriminate].
  destruct (isinstance e APIError) eqn:Hapi; [discriminate|].
  assert (isinstance e RateLimitError = false
          /\ isinstance e APITimeoutError = false
          /\ isinstance e APIConnectionError = false) as (-> & -> & ->).
  { clear - Hapi. destruct e as [c m s x].
    unfold isinstance, issubclass in *; simpl in *.
    destruct c; try discriminate; auto. }
  reflexivity.
Qed.

Lemma attempt_returns (fr : frame C) n attempt result :
  request_count (self fr) = Some n ->
  (func (callee fr)).2 = Return result ->
  attempt_body func backoff_factor attempt fr =
    (attempted fr n (func (callee fr)).1, Returned result).
Proof.
  intros Hreq Hout. unfold attempt_body.
  rewrite (try_block_invokes fr n Hreq), Hout. reflexivity.
Qed.
End RetryWithCounters.

Section RetryLoop.
Import BaseProvider Retry.
Context {R C : Type}.
Variable func : C -> C * outcome R.
Variable backoff_factor : float.

Lemma loop_app (l1 l2 : list Z) (fr : frame C) :
  loop func backoff_factor (l1 ++ l2) fr =
    match loop func backoff_factor l1 fr with
    | (fr', Next) => loop func backoff_factor l2 fr'
    | stop => stop
    end.
Proof.
  revert fr. induction l1 as [|a l1 IH]; intros fr; simpl; [reflexivity|].
  destruct (attempt_body func backoff_factor a fr) as [fr1 []]; auto.
Qed.

Lemma invocations_app (tr1 tr2 : list event) :
  invocations (tr1 ++ tr2) = (invocations tr1 + invocations tr2)%nat.
Proof. unfold invocations. rewrite List.filter_app, length_app. reflexivity. Qed.

Lemma invocations_snoc_invoke (tr : list event) :
  invocations (tr ++ [Invoke]) = S (invocations tr).
Proof. rewrite invocations_app. change (invocations [Invoke]) with 1%nat. lia. Qed.

Lemma sleeps_app (tr1 tr2 : list event) :
  sleeps (tr1 ++ tr2) = sleeps tr1 ++ sleeps tr2.
Proof. unfold sleeps. apply omap_app. Qed.

(** A run of retryable failures: every attempt invokes the function once,
    bumps [request_count] once, sleeps once, and the loop goes on. *)
Lemma loop_retryable (len : nat) :
  forall (i : Z) (fr : frame C) (n : Z),
    0 <= i -> i + Z.of_nat len <= 1024 ->
    request_count (self fr) = Some n ->
    (forall k, (k < len)%nat -> fails_retryably func k (callee fr)) ->
    exists fr',
      loop func backoff_factor (seqZ i (Z.of_nat len)) fr = (fr', Next)
      /\ request_count (self fr') = Some (n + Z.of_nat len)
      /\ error_count (self fr') = error_count (self fr)
      /\ name (self fr') = name (self fr)
      /\ class_name (self fr') = class_name (self fr)
      /\ callee fr' = state_after func len (callee fr)
      /\ invocations (trace fr') = (invocations (trace fr) + len)%nat
      /\ sleeps (trace fr') =
           sleeps (trace fr) ++ pauses func backoff_factor i len (callee fr)
      /\ match len with
         | O => last_exception fr' = last_exception fr
         | S k => exists e, outcome_of func k (callee fr) = Raise e
                            /\ last_exception fr' = Some (provider_error_for e)
         end.
Proof.
  induction len as [|len IH]; intros i fr n Hi Hbound Hreq Hfail.
  - exists fr. simpl. rewrite Z.add_0_r, app_nil_r. auto 10.
  - destruct (Hfail O) as (e & Hout & Hretry); [lia|].
    unfold outcome_of in Hout; simpl in Hout.
    rewrite seqZ_cons by lia. simpl.
    rewrite (attempt_retryable func backoff_factor fr n i e Hreq Hout Hretry)
      by lia.
    set (fr1 := record _ _).
    destruct (IH (Z.succ i) fr1 (n + 1)) as
      (fr' & Hloop & Hreq' & Herr' & Hname' & Hcls' & Hcallee' & Hinv' & Hsl' & Hlast');
      [lia | lia | reflexivity | |].
    { intros k Hk. destruct (Hfail (S k)) as (e' & Hout' & Hretry'); [lia|].
      exists e'. split; [exact Hout' | exact Hretry']. }
    exists fr'.
    replace (Z.pred (Z.of_nat (S len))) with (Z.of_nat len) by lia.
    split; [exact Hloop|].
    split; [rewrite Hreq'; f_equal; lia|].
    split; [rewrite Herr'; reflexivity|].
    split; [rewrite Hname'; reflexivity|].
    split; [rewrite Hcls'; reflexivity|].
    split; [rewrite Hcallee'; reflexivity|].
    split.
    { rewrite Hinv'. subst fr1. simpl. rewrite !invocations_app.
      change (invocations [Invoke]) with 1%nat.
      change (invocations [Sleep (backoff backoff_factor i e)]) with 0%nat.
      lia. }
    split.
    { rewrite Hsl'. subst fr1. simpl. rewrite !sleeps_app, Hout. simpl.
      rewrite <- !app_assoc. simpl.
      replace (i + 1) with (Z.succ i) by lia. reflexivity. }
    destruct len as [|k].
    + exists e. split; [exact Hout|]. rewrite Hlast'. reflexivity.
    + destruct Hlast' as (e' & Hout' & Hlast'). exists e'.
      split; [exact Hout' | exact Hlast'].
Qed.

Lemma provider_error_for_is_provider_error (e : exn) :
  isinstance (provider_error_for e) ProviderError = true.
Proof.
  unfold provider_error_for.
  repeat (match goal with |- context [if ?b then _ else _] => destruct b end);
    reflexivity.
Qed.

(** The provider-level error carries the text of its cause. *)
Lemma provider_error_for_carries_cause (e : exn) :
  exists prefix, str (provider_error_for e) = Lit prefix :: str e.
Proof.
  unfold provider_error_for.
  repeat (match goal with |- context [if ?b then _ else _] => destruct b end);
    eexists; reflexivity.
Qed.
End RetryLoop.

Section RetryCalls.
Import BaseProvider Retry.
Context {R C : Type}.
Variable func : C -> C * outcome R.
Variable backoff_factor : float.

Lemma state_after_succ (k : nat) (c : C) :
  state_after func (S k) c = (func (state_after func k c)).1.
Proof.
  revert c. induction k as [|k IH]; intros c; [reflexivity|].
  change (state_after func (S (S k)) c)
    with (state_after func (S k) (func c).1).
  rewrite IH. reflexivity.
Qed.

Lemma provider_error_for_unexpected (e : exn) :
  unexpected e = true ->
  provider_error_for e = new ProviderError (Lit "Unexpected error: " :: str e).
Proof.
  unfold unexpected, provider_error_for. intros Hun.
  destruct (isinstance e Exception); [|discriminate].
  destruct (isinstance e APIError) eqn:Hapi; [discriminate|].
  assert (isinstance e RateLimitError = false
          /\ isinstance e APITimeoutError = false
          /\ isinstance e APIConnectionError = false) as (-> & -> & ->);
    [|reflexivity].
  clear - Hapi. destruct e as [cl msg st x].
  unfold isinstance, issubclass in *; simpl in *.
  destruct cl; try discriminate; auto.
Qed.

(** The loop after [k] retryable failures: it stands at attempt number
    [k], having invoked the function [k] times and slept [k] times. *)
Lemma loop_after_retryable_prefix (max_retries : Z) (k : nat)
    (fr0 : frame C) (n : Z) :
  Z.of_nat k < max_retries -> Z.of_nat k <= 1024 ->
  request_count (self fr0) = Some n ->
  (forall j, (j < k)%nat -> fails_retryably func j (callee fr0)) ->
  exists fr',
    loop func backoff_factor (seqZ 0 max_retries) fr0 =
      match attempt_body func backoff_factor (Z.of_nat k) fr' with
      | (fr1, Next) =>
          loop func backoff_factor
            (seqZ (Z.of_nat k + 1) (max_retries - Z.of_nat k - 1)) fr1
      | stop => stop
      end
    /\ request_count (self fr') = Some (n + Z.of_nat k)
    /\ error_count (self fr') = error_count (self fr0)
    /\ callee fr' = state_after func k (callee fr0)
    /\ invocations (trace fr') = (invocations (trace fr0) + k)%nat
    /\ sleeps (trace fr') =
         sleeps (trace fr0) ++ pauses func backoff_factor 0 k (callee fr0).
Proof.
  intros Hk Hbound Hreq Hfail.
  destruct (loop_retryable func backoff_factor k 0 fr0 n) as
    (fr' & Hloop & Hreq' & Herr' & _ & _ & Hcallee' & Hinv' & Hsl' & _);
    [lia | lia | exact Hreq | exact Hfail |].
  exists fr'. repeat split; try assumption.
  replace max_retries with (Z.of_nat k + (max_retries - Z.of_nat k)) at 1 by lia.
  rewrite seqZ_app by lia. rewrite loop_app, Hloop.
  rewrite seqZ_cons by lia. simpl.
  replace (Z.succ (0 + Z.of_nat k)) with (Z.of_nat k + 1) by lia.
  replace (Z.pred (max_retries - Z.of_nat k))
    with (max_retries - Z.of_nat k - 1) by lia.
  reflexivity.
Qed.

Variables (s : t) (c : C) (n m : Z).
Hypothesis Hrequests : request_count s = Some n.
Hypothesis Herrors : error_count s = Some m.

(** X1.  All [max_retries] attempts fail with retryable errors: the call raises
    the provider-level error built from the last cause, [error_count] is
    one higher and [request_count] is higher by the number of attempts. *)
Theorem retries_exhausted (max_retries : Z) :
  0 <= max_retries <= 1024 ->
  (forall k, (k < Z.to_nat max_retries)%nat -> fails_retryably func k c) ->
  exists fr e,
    _execute_with_retry func s c max_retries backoff_factor = (fr, Raise e)
    /\ isinstance e ProviderError = true
    /\ request_count (self fr) = Some (n + max_retries)
    /\ error_count (self fr) = Some (m + 1)
    /\ invocations (trace fr) = Z.to_nat max_retries
    /\ sleeps (trace fr) =
         pauses func backoff_factor 0 (Z.to_nat max_retries) c
    /\ match Z.to_nat max_retries with
       | O => e = new ProviderError
                    [Lit "Provider "; Lit (name s); Lit " non disponibile"]
       | S k => exists cause, outcome_of func k c = Raise cause
                              /\ e = provider_error_for cause
       end.
Proof.
  intros Hmax Hfail. unfold _execute_with_retry.
  set (fr0 := {| self := s; callee := c; last_exception := None; trace := [] |}).
  destruct (loop_retryable func backoff_factor (Z.to_nat max_retries) 0 fr0 n)
    as (fr' & Hloop & Hreq' & Herr' & Hname' & _ & _ & Hinv' & Hsl' & Hlast');
    [lia | lia | exact Hrequests | exact Hfail |].
  rewrite Z2Nat.id in Hloop, Hreq' by lia.
  rewrite Hloop. unfold after_loop. rewrite Herr'. simpl. rewrite Herrors.
  eexists _, _. split; [reflexivity|].
  destruct (Z.to_nat max_retries) as [|k] eqn:Hlen.
  - rewrite Hlast'. simpl. rewrite Hname'. simpl.
    repeat split; auto.
  - destruct Hlast' as (cause & Hout & ->). simpl.
    split; [apply provider_error_for_is_provider_error|].
    repeat split; eauto.
Qed.

(** X2.  A client-side error on attempt number [k]: it is raised at once as a
    [ProviderError], and the function has been invoked [k + 1] times. *)
Theorem client_error_not_retried (max_retries : Z) (k : nat) (e : exn) :
  Z.of_nat k < max_retries -> Z.of_nat k <= 1024 ->
  (forall j, (j < k)%nat -> fails_retryably func j c) ->
  outcome_of func k c = Raise e ->
  client_side e = true ->
  exists fr,
    _execute_with_retry func s c max_retries backoff_factor =
      (fr, Raise (during e (new ProviderError (Lit "Client error: " :: str e))))
    /\ invocations (trace fr) = S k
    /\ callee fr = state_after func (S k) c
    /\ request_count (self fr) = Some (n + Z.of_nat k + 1)
    /\ error_count (self fr) = Some m.
Proof.
  intros Hk Hbound Hfail Hout Hclient. unfold _execute_with_retry.
  set (fr0 := {| self := s; callee := c; last_exception := None; trace := [] |}).
  destruct (loop_after_retryable_prefix max_retries k fr0 n) as
    (fr' & Hloop & Hreq' & Herr' & Hcallee' & Hinv' & _);
    [lia | lia | exact Hrequests | exact Hfail |].
  unfold outcome_of in Hout. change c with (callee fr0) in Hout.
  rewrite <- Hcallee' in Hout.
  rewrite Hloop, (attempt_client_side func backoff_factor fr' _ _ e Hreq' Hout Hclient).
  eexists. split; [reflexivity|]. rewrite state_after_succ. simpl.
  rewrite invocations_snoc_invoke, Hinv', Hcallee', Herr'.
  simpl. rewrite Herrors. repeat split; reflexivity || lia.
Qed.

(** X3.  An unexpected exception on attempt number [k]: the loop is left, the
    call raises a generic [ProviderError], [error_count] is one higher and
    the function has been invoked [k + 1] times. *)
Theorem unexpected_error_not_retried (max_retries : Z) (k : nat) (e : exn) :
  Z.of_nat k < max_retries -> Z.of_nat k <= 1024 ->
  (forall j, (j < k)%nat -> fails_retryably func j c) ->
  outcome_of func k c = Raise e ->
  unexpected e = true ->
  exists fr,
    _execute_with_retry func s c max_retries backoff_factor =
      (fr, Raise (new ProviderError (Lit "Unexpected error: " :: str e)))
    /\ invocations (trace fr) = S k
    /\ callee fr = state_after func (S k) c
    /\ request_count (self fr) = Some (n + Z.of_nat k + 1)
    /\ error_count (self fr) = Some (m + 1).
Proof.
  intros Hk Hbound Hfail Hout Hun. unfold _execute_with_retry.
  set (fr0 := {| self := s; callee := c; last_exception := None; trace := [] |}).
  destruct (loop_after_retryable_prefix max_retries k fr0 n) as
    (fr' & Hloop & Hreq' & Herr' & Hcallee' & Hinv' & _);
    [lia | lia | exact Hrequests | exact Hfail |].
  unfold outcome_of in Hout. change c with (callee fr0) in Hout.
  rewrite <- Hcallee' in Hout.
  rewrite Hloop, (attempt_unexpected func backoff_factor fr' _ _ e Hreq' Hout Hun).
  unfold after_loop. simpl. rewrite Herr'. simpl. rewrite Herrors.
  rewrite (provider_error_for_unexpected e Hun).
  pose proof (state_after_succ k c) as Hsucc. simpl in Hsucc.
  eexists. split; [reflexivity|]. simpl.
  rewrite invocations_snoc_invoke, Hinv', Hcallee', Hsucc.
  simpl. repeat split; reflexivity || lia.
Qed.

(** Success on attempt number [k] after [k] retryable failures: the call
    returns the result, having invoked the function [k + 1] times and
    slept [k] times. *)
Theorem success_after_retries (max_retries : Z) (k : nat) (result : R) :
  Z.of_nat k < max_retries -> Z.of_nat k <= 1024 ->
  (forall j, (j < k)%nat -> fails_retryably func j c) ->
  outcome_of func k c = Return result ->
  exists fr,
    _execute_with_retry func s c max_retries backoff_factor =
      (fr, Return result)
    /\ invocations (trace fr) = S k
    /\ sleeps (trace fr) = pauses func backoff_factor 0 k c
    /\ request_count (self fr) = Some (n + Z.of_nat k + 1)
    /\ error_count (self fr) = Some m.
Proof.
  intros Hk Hbound Hfail Hout. unfold _execute_with_retry.
  set (fr0 := {| self := s; callee := c; last_exception := None; trace := [] |}).
  destruct (loop_after_retryable_prefix max_retries k fr0 n) as
    (fr' & Hloop & Hreq' & Herr' & Hcallee' & Hinv' & Hsl');
    [lia | lia | exact Hrequests | exact Hfail |].
  unfold outcome_of in Hout. change c with (callee fr0) in Hout.
  rewrite <- Hcallee' in Hout.
  rewrite Hloop, (attempt_returns func backoff_factor fr' _ _ result Hreq' Hout).
  eexists. split; [reflexivity|]. simpl.
  rewrite invocations_snoc_invoke, sleeps_app, Hinv', Hsl', Herr'.
  simpl. rewrite Herrors, app_nil_r. repeat split; reflexivity || lia.
Qed.
End RetryCalls.

(** With both counters in place and the default parameters, two rate
    limits followed by a success: the result is returned after sleeps of
    1.5 and 3.0 seconds. *)
Lemma rate_limited_twice_then_success {R : Type} (s : BaseProvider.t)
    (n m : Z) (e1 e2 : exn) (result : R) (max_retries : Z) :
  BaseProvider.request_count s = Some n ->
  BaseProvider.error_count s = Some m ->
  3 <= max_retries ->
  isinstance e1 RateLimitError = true ->
  isinstance e2 RateLimitError = true ->
  exists fr,
    BaseProvider._execute_with_retry Retry.scripted s
      [Raise e1; Raise e2; Return result] max_retries
      BaseProvider.default_backoff_factor = (fr, Return result)
    /\ Retry.invocations (BaseProvider.trace fr) = 3%nat
    /\ Retry.sleeps (BaseProvider.trace fr) = [F 1.5%float; F 3%float]
    /\ (1.5 <? 3)%float = true.
Proof.
  intros Hreq Herr Hmax H1 H2.
  destruct (success_after_retries Retry.scripted
              BaseProvider.default_backoff_factor s
              [Raise e1; Raise e2; Return result] n m Hreq Herr
              max_retries 2 result) as (fr & Hcall & Hinv & Hsl & _).
  - lia.
  - lia.
  - intros j Hj. unfold Retry.fails_retryably, Retry.retryable.
    destruct j as [|[|j]]; [exists e1 | exists e2 | lia];
      (split; [reflexivity|]); [rewrite H1 | rewrite H2]; reflexivity.
  - reflexivity.
  - exists fr. split; [exact Hcall|]. split; [exact Hinv|].
    split; [|reflexivity].
    rewrite Hsl. simpl. unfold Retry.backoff. rewrite H1, H2. reflexivity.
Qed.

(** *** The provider objects the constructor builds *)

(** C3 (the code departs from the claim).  For every provider object built
    by [BaseProvider.__init__], every wrapped function, every [max_retries]
    and every [backoff_factor], the retry-wrapped call raises the
    [AttributeError] of [self.error_count += 1]: it raises no provider-level
    error, the wrapped function is not invoked once, and neither counter
    comes into existence, whatever the attempts would have done. *)
Theorem retry_counters_are_never_initialised {R C : Type}
    (func : C -> C * outcome R) (cls : string) (cfg : ProviderConfig)
    (c : C) (max_retries : Z) (backoff_factor : float) :
  let call := BaseProvider._execute_with_retry func
                (BaseProvider.__init__ cls cfg) c max_retries backoff_factor in
  call.2 = Raise (no_attribute cls "error_count")
  /\ isinstance (no_attribute cls "error_count") ProviderError = false
  /\ Retry.invocations (BaseProvider.trace call.1) = 0%nat
  /\ BaseProvider.request_count (BaseProvider.self call.1) = None
  /\ BaseProvider.error_count (BaseProvider.self call.1) = None.
Proof.
  intros call. subst call.
  pose proof (execute_with_retry_without_counters func
                (BaseProvider.__init__ cls cfg) c max_retries backoff_factor
                eq_refl eq_refl) as H.
  destruct (BaseProvider._execute_with_retry _ _ _ _ _) as [fr res].
  destruct H as (-> & Htrace & _ & Hself). simpl.
  rewrite Htrace, Hself. repeat split; reflexivity.
Qed.

(** C7 (the code departs from the claim).  On a provider as the constructor
    builds it, a wrapped function that would raise [ValueError]: the call
    does not surface a generic provider error.  The [ProviderError] built
    for the unexpected failure is left in [last_exception] and the call
    raises [AttributeError] instead; the function was never invoked. *)
Theorem unexpected_error_surfaces_as_attribute_error :
  let call := BaseProvider._execute_with_retry Retry.scripted Retry.local_provider
                [Raise (new ValueError [Lit "boom"]); Return "ok"]
                BaseProvider.default_max_retries
                BaseProvider.default_backoff_factor in
  call.2 = Raise (no_attribute "LocalProvider" "error_count")
  /\ BaseProvider.last_exception call.1 =
       Some (new ProviderError
               (Lit "Unexpected error: "
                  :: str (no_attribute "LocalProvider" "request_count")))
  /\ Retry.invocations (BaseProvider.trace call.1) = 0%nat.
Proof. repeat split; reflexivity. Qed.

(** C8 (the code departs from the claim).  On a provider as the constructor
    builds it, a wrapped function that would raise a rate-limit error twice
    and then succeed: the call does not return the result.  It raises
    [AttributeError] without invoking the function and without sleeping. *)
Theorem rate_limited_call_never_starts :
  let rate_limit := Exn RateLimitError [Lit "rate limit"] (Some 429) None in
  let call := BaseProvider._execute_with_retry Retry.scripted Retry.local_provider
                [Raise rate_limit; Raise rate_limit; Return "ok"]
                BaseProvider.default_max_retries
                BaseProvider.default_backoff_factor in
  call.2 = Raise (no_attribute "LocalProvider" "error_count")
  /\ Retry.invocations (BaseProvider.trace call.1) = 0%nat
  /\ Retry.sleeps (BaseProvider.trace call.1) = [].
Proof. repeat split; reflexivity. Qed.

(* ===================================================================== *)
(** ** Insertion-ordered dictionaries                                      *)
(* ===================================================================== *)

Section DictFacts.
Context {V : Type}.
Implicit Types (d : dict V) (k : string) (v : V).

Lemma get_set_same d k v : get (set d k v) k = Some v.
Proof.
  induction d as [|[k' v'] d IH]; simpl.
  - rewrite String.eqb_refl. reflexivity.
  - destruct (String.eqb k' k) eqn:Hk; simpl.
    + rewrite String.eqb_refl. reflexivity.
    + rewrite Hk. exact IH.
Qed.

Lemma get_set_other d k v k0 : k0 <> k -> get (set d k v) k0 = get d k0.
Proof.
  intros Hne. induction d as [|[k' v'] d IH]; simpl.
  - destruct (String.eqb_spec k k0); [congruence | reflexivity].
  - destruct (String.eqb_spec k' k) as [->|Hk]; simpl.
    + destruct (String.eqb_spec k k0); [congruence | reflexivity].
    + destruct (String.eqb_spec k' k0); [reflexivity | exact IH].
Qed.

Lemma in_keys_set d k v k0 :
  In k0 (keys (set d k v)) <-> k0 = k \/ In k0 (keys d).
Proof.
  induction d as [|[k' v'] d IH]; simpl.
  - intuition congruence.
  - destruct (String.eqb_spec k' k) as [->|Hk]; simpl.
    + intuition congruence.
    + rewrite IH. intuition congruence.
Qed.

Lemma well_formed_set d k v : well_formed d -> well_formed (set d k v).
Proof.
  unfold well_formed. induction d as [|[k' v'] d IH]; simpl; intros Hwf.
  - apply List.NoDup_cons; [intros [] | apply List.NoDup_nil].
  - apply List.NoDup_cons_iff in Hwf as [Hnotin Hwf].
    destruct (String.eqb_spec k' k) as [->|Hk]; simpl.
    + apply List.NoDup_cons; assumption.
    + apply List.NoDup_cons; [|apply IH; exact Hwf].
      intros Hin. apply in_keys_set in Hin as [->|Hin]; [congruence | tauto].
Qed.

(** After an assignment the key occurs exactly once. *)
Lemma key_occurs_once d k v :
  well_formed d -> count_occ string_dec (keys (set d k v)) k = 1%nat.
Proof.
  intros Hwf.
  apply (proj1 (List.NoDup_count_occ' string_dec _)).
  - apply well_formed_set. exact Hwf.
  - apply in_keys_set. left. reflexivity.
Qed.
End DictFacts.

(* ===================================================================== *)
(** ** The orchestrator                                                    *)
(* ===================================================================== *)

Section OrchestratorFacts.
Import AIOrchestrator.
Context {P Resp : Type}.
Variable provider_chat : P -> string -> schemas.GenerationParams -> outcome Resp.

(** Whatever is registered after it, only the first provider of the
    dictionary is called, and its outcome is the outcome of [chat]. *)
Lemma chat_consults_first_provider_only (self : t P Resp) (key : string)
    (provider : P) (rest : dict P) (prompt model : string) :
  providers self = (key, provider) :: rest ->
  contacted (chat provider_chat self prompt model) = [key]
  /\ result (chat provider_chat self prompt model) =
       provider_chat provider prompt (schemas.GenerationParams_of_model model).
Proof.
  intros Hproviders. unfold chat. rewrite Hproviders.
  destruct (provider_chat provider prompt _); simpl; auto.
Qed.

Lemma chat_with_two_providers (k1 k2 : string) (p1 p2 : P)
    (prompt model : string) :
  k1 <> k2 ->
  let o := register_provider (register_provider __init__ k1 p1) k2 p2 in
  contacted (chat provider_chat o prompt model) = [k1]
  /\ result (chat provider_chat o prompt model) =
       provider_chat p1 prompt (schemas.GenerationParams_of_model model).
Proof.
  intros Hne o. apply (chat_consults_first_provider_only o k1 p1 [(k2, p2)]).
  subst o. unfold register_provider, __init__. simpl.
  destruct (String.eqb_spec k1 k2); [congruence | reflexivity].
Qed.
End OrchestratorFacts.

(** C1 (the code departs from the claim).  Register a provider whose every
    request fails with a rate-limit error, then one that succeeds: [chat]
    raises the error of the first and never calls the second.  Registered
    the other way round, [chat] returns the response of the succeeding
    provider without ever trying the failing one.  There is no walk over the
    providers. *)
Theorem chat_does_not_fail_over :
  let o := Scenario.orchestrator
             [("p1", Scenario.failing); ("p2", Scenario.succeeding)] in
  let o' := Scenario.orchestrator
              [("p2", Scenario.succeeding); ("p1", Scenario.failing)] in
  AIOrchestrator.result (Scenario.ask o) =
    Raise (Exn Exception
             [Lit "DeepSeek API error: "; Lit "rate limit reached"] None
             (Some Scenario.rate_limit))
  /\ AIOrchestrator.contacted (Scenario.ask o) = ["p1"]
  /\ AIOrchestrator.result (Scenario.ask o') = Return "pong"
  /\ AIOrchestrator.contacted (Scenario.ask o') = ["p2"].
Proof. repeat split; reflexivity. Qed.

(** C2 (the code departs from the claim).  With two registered providers
    that both fail, [chat] raises the plain [Exception] of the first one,
    whose text names neither provider; the second provider is not called and
    contributes no cause; the orchestrator is left as it was. *)
Theorem chat_raises_the_first_provider_error :
  let o := Scenario.orchestrator
             [("p1", Scenario.failing); ("p2", Scenario.failing)] in
  AIOrchestrator.result (Scenario.ask o) =
    Raise (Exn Exception
             [Lit "DeepSeek API error: "; Lit "rate limit reached"] None
             (Some Scenario.rate_limit))
  /\ AIOrchestrator.contacted (Scenario.ask o) = ["p1"]
  /\ AIOrchestrator.after (Scenario.ask o) = o.
Proof. repeat split; reflexivity. Qed.

(* ===================================================================== *)
(** ** The tools manager                                                   *)
(* ===================================================================== *)

Section ToolsFacts.
Import ToolsManager.
Context {V J : Type}.

Lemma execute_tool_unregistered (m : t V J) (call : ToolCall V) :
  get (tools m) (name call) = None ->
  execute_tool m call =
    Raise (new ToolExecutionError [Lit "Tool non trovato: "; Lit (name call)]).
Proof. intros Hget. unfold execute_tool. rewrite Hget. reflexivity. Qed.

Lemma execute_tool_registered (m : t V J) (call : ToolCall V) (h : handler V) :
  get (tools m) (name call) = Some h ->
  execute_tool m call = Scenario.surfaced (name call) (h (arguments call)).
Proof. intros Hget. unfold execute_tool. rewrite Hget. reflexivity. Qed.

(** X26.  An exception of a registered handler is wrapped: the error names the
    tool, carries the text of the cause and has the cause as context. *)
Lemma handler_exception_is_wrapped (m : t V J) (call : ToolCall V)
    (h : handler V) (e : exn) :
  get (tools m) (name call) = Some h ->
  h (arguments call) = Raise e ->
  isinstance e Exception = true ->
  execute_tool m call =
    Raise (Exn ToolExecutionError
             (Lit "Errore esecuzione " :: Lit (name call) :: Lit ": " :: str e)
             None (Some e)).
Proof.
  intros Hget Hraise Hexc. rewrite (execute_tool_registered m call h Hget).
  rewrite Hraise. simpl. rewrite Hexc. reflexivity.
Qed.

Lemma bearing_app (name : string) (l1 l2 : list (tool_def J)) :
  Scenario.bearing name (l1 ++ l2) =
  Scenario.bearing name l1 ++ Scenario.bearing name l2.
Proof. apply List.filter_app. Qed.
End ToolsFacts.

(** C9 (the code departs from the claim).  A call naming a tool that is not
    registered raises the base class [ToolExecutionError], the class that
    also reports a failed execution, and not [ToolNotFoundError]: a handler
    for the not-found class does not catch it. *)
Theorem unregistered_tool_raises_the_base_error {V J : Type} (name : string)
    (arguments : dict V) :
  let call := {| ToolsManager.name := name;
                 ToolsManager.arguments := arguments |} in
  let raised := new ToolExecutionError [Lit "Tool non trovato: "; Lit name] in
  ToolsManager.execute_tool (@ToolsManager.__init__ V J) call = Raise raised
  /\ exc_type raised = ToolExecutionError
  /\ isinstance raised ToolNotFoundError = false.
Proof. repeat split; reflexivity. Qed.

(** C10.  Registering the same name twice, with handlers [h1] then [h2]:
    the name is bound to [h2] alone, which [execute_tool] then invokes;
    [list_tools] has the name once; [get_tool_definitions] has grown by two
    entries bearing the name, one per registration, in that order. *)
Theorem registering_a_name_twice {V J : Type} (m : ToolsManager.t V J)
    (name : string) (h1 h2 : ToolsManager.handler V) (d1 d2 : string)
    (p1 p2 : J) :
  well_formed (ToolsManager.tools m) ->
  let m2 := ToolsManager.register_tool
              (ToolsManager.register_tool m name h1 d1 p1) name h2 d2 p2 in
  let entry d p :=
    {| ToolsManager.type := "function";
       ToolsManager.function :=
         {| ToolsManager.fn_name := name; ToolsManager.fn_description := d;
            ToolsManager.fn_parameters := p |} |} in
  get (ToolsManager.tools m2) name = Some h2
  /\ (forall arguments,
        ToolsManager.execute_tool m2
          {| ToolsManager.name := name; ToolsManager.arguments := arguments |}
        = Scenario.surfaced name (h2 arguments))
  /\ count_occ string_dec (ToolsManager.list_tools m2) name = 1%nat
  /\ ToolsManager.get_tool_definitions m2 =
       ToolsManager.get_tool_definitions m ++ [entry d1 p1; entry d2 p2]
  /\ length (Scenario.bearing name (ToolsManager.get_tool_definitions m2)) =
       (length (Scenario.bearing name (ToolsManager.get_tool_definitions m)) + 2)%nat.
Proof.
  intros Hwf m2 entry.
  assert (Hget : get (ToolsManager.tools m2) name = Some h2)
    by apply get_set_same.
  split; [exact Hget|].
  split.
  { intros arguments.
    apply (execute_tool_registered m2
             {| ToolsManager.name := name; ToolsManager.arguments := arguments |}
             h2 Hget). }
  split.
  { apply key_occurs_once, well_formed_set, Hwf. }
  assert (Hdefs : ToolsManager.get_tool_definitions m2 =
                  ToolsManager.get_tool_definitions m ++ [entry d1 p1; entry d2 p2]).
  { subst m2. unfold ToolsManager.get_tool_definitions,
      ToolsManager.register_tool. simpl. rewrite <- app_assoc. reflexivity. }
  split; [exact Hdefs|].
  rewrite Hdefs, bearing_app, length_app. f_equal.
  unfold Scenario.bearing. simpl. rewrite String.eqb_refl. reflexivity.
Qed.

(** C10 at a manager without tools: the handlers return 1 and 2. *)
Lemma registering_a_name_twice_witness :
  well_formed (ToolsManager.tools (@ToolsManager.__init__ Z string))
  /\ get (ToolsManager.tools
            (ToolsManager.register_tool
               (ToolsManager.register_tool (@ToolsManager.__init__ Z string)
                  "calculate" (fun _ => Return 1) "first" "{}")
               "calculate" (fun _ => Return 2) "second" "{}"))
         "calculate"
     = Some (fun _ => Return 2).
Proof.
  split.
  - apply List.NoDup_nil.
  - apply (registering_a_name_twice (@ToolsManager.__init__ Z string)
             "calculate" (fun _ => Return 1) (fun _ => Return 2)
             "first" "second" "{}" "{}").
    apply List.NoDup_nil.
Defined.

(* ===================================================================== *)
(** ** The cost controller                                                 *)
(* ===================================================================== *)

Section CostFacts.
Import CostController.

Lemma lookup_newer {A : Type} (threshold k : string) (m : gmap string A) :
  newer threshold k = true ->
  filter (λ kv, newer threshold kv.1 = true) m !! k = m !! k.
Proof.
  intros Hnewer. destruct (m !! k) as [x|] eqn:Hk.
  - apply map_lookup_filter_Some. split; [exact Hk | exact Hnewer].
  - apply map_lookup_filter_None. left. exact Hk.
Qed.

(** The clean-up keeps the windows of the current hour and day. *)
Lemma cleanup_keeps_current (now : clock) (self : t) :
  Scenario.sane now ->
  tokens_at (hourly_usage (_cleanup_old_entries now self)) (hour_key now)
  = tokens_at (hourly_usage self) (hour_key now)
  /\ tokens_at (daily_usage (_cleanup_old_entries now self)) (day_key now)
     = tokens_at (daily_usage self) (day_key now)
  /\ cost_at (hourly_cost (_cleanup_old_entries now self)) (hour_key now)
     = cost_at (hourly_cost self) (hour_key now).
Proof.
  intros [Hhour Hday]. unfold tokens_at, cost_at, _cleanup_old_entries; simpl.
  rewrite !lookup_newer by assumption. auto.
Qed.

Lemma true_div_defined (a b : Z) :
  0 < b -> Z.abs a < float_bound * b ->
  exists q, int_true_div a b = Return q.
Proof.
  intros Hb Ha. unfold int_true_div.
  destruct (Z.eqb_spec b 0) as [->|_]; [lia|].
  rewrite (Z.abs_eq b) by lia.
  destruct (Z.leb_spec (float_bound * b) (Z.abs a)); [lia|].
  eexists. reflexivity.
Qed.

Lemma true_div_by_zero (a : Z) :
  int_true_div a 0 = Raise (new ZeroDivisionError [Lit "division by zero"]).
Proof. reflexivity. Qed.

(** X13.  With a positive hourly ceiling, a sane clock, and neither the daily
    ceiling nor the cost ceiling in the way, [check_budget] returns [True]
    exactly when the tokens of the current hour plus the estimate stay
    within the ceiling, and raises [BudgetExceededException] exactly when
    they pass it. *)
Theorem hourly_ceiling_is_inclusive (now : clock) (self : t)
    (estimated_tokens : Z) (model : string) :
  let limit := max_tokens_per_hour (config self) in
  let used := tokens_at (hourly_usage self) (hour_key now) in
  let outcome := result (check_budget now self estimated_tokens model) in
  Scenario.sane now ->
  0 < limit ->
  0 <= estimated_tokens <= limit ->
  - (float_bound * limit) < used + estimated_tokens ->
  tokens_at (daily_usage self) (day_key now) + estimated_tokens
    <= max_tokens_per_day (config self) ->
  (exists cost,
      int_mul_float estimated_tokens (unit_price self model) = Return cost
      /\ (max_cost_per_hour (config self)
            <? cost_at (hourly_cost self) (hour_key now) + cost)%float = false) ->
  (outcome = Return true <-> used + estimated_tokens <= limit)
  /\ ((exists msg, outcome = Raise (new BudgetExceededException msg))
      <-> limit < used + estimated_tokens).
Proof.
  intros limit used outcome Hsane Hlimit Hest Hlow Hday (cost & Hcost & Hfits).
  destruct (cleanup_keeps_current now self Hsane) as (Hh & Hd & Hc).
  assert (Hbound : limit < float_bound * limit).
  { assert (1 < float_bound) by (vm_compute; reflexivity). nia. }
  subst outcome. unfold check_budget. cbv zeta.
  change (max_tokens_per_hour (config self)) with limit.
  destruct (Z.ltb_spec estimated_tokens 0); [lia|].
  destruct (Z.ltb_spec limit estimated_tokens); [lia|].
  change (config (_cleanup_old_entries now self)) with (config self).
  change (unit_price (_cleanup_old_entries now self) model)
    with (unit_price self model).
  rewrite Hh, Hd, Hc. fold used. fold limit.
  destruct (Z.ltb_spec limit (used + estimated_tokens)) as [Hover|Hwithin].
  { simpl. split; split; try lia; try discriminate.
    intros _. eexists. reflexivity. }
  destruct (Z.ltb_spec (max_tokens_per_day (config self))
              (tokens_at (daily_usage self) (day_key now) + estimated_tokens));
    [lia|].
  rewrite Hcost, Hfits.
  destruct (true_div_defined (used + estimated_tokens) limit) as [q Hq];
    [lia | lia |].
  rewrite Hq. simpl. split; split; try lia; try reflexivity.
  intros [msg Hmsg]. discriminate.
Qed.

(** The scenario of the test suite: with a ceiling of 1000, 500 and then
    400 tokens are accepted and recorded, and a further 200 are refused. *)
Lemma budget_scenario :
  let now := Scenario.morning in
  let c0 := __init__ (Scenario.budget 1000) in
  let r1 := check_budget now c0 500 default_model in
  let c1 := (record_usage now (state r1) 500 default_model).1 in
  let r2 := check_budget now c1 400 default_model in
  let c2 := (record_usage now (state r2) 400 default_model).1 in
  let r3 := check_budget now c2 200 default_model in
  result r1 = Return true /\ result r2 = Return true
  /\ result r3 = Raise (new BudgetExceededException
                          [Lit "Budget orario superato: "; Int 1100;
                           Lit " / "; Int 1000])
  /\ result (check_budget now c2 100 default_model) = Return true
  /\ result (check_budget now c2 101 default_model)
     = Raise (new BudgetExceededException
                [Lit "Budget orario superato: "; Int 1001;
                 Lit " / "; Int 1000]).
Proof. vm_compute. repeat split; reflexivity. Qed.

(** [record_usage] adds the tokens to the windows of the current hour and
    day, whether or not the cost can be computed. *)
Lemma record_usage_adds (now : clock) (self : t) (tokens_used : Z)
    (model : string) :
  let self' := (record_usage now self tokens_used model).1 in
  tokens_at (hourly_usage self') (hour_key now)
  = tokens_at (hourly_usage self) (hour_key now) + tokens_used
  /\ tokens_at (daily_usage self') (day_key now)
     = tokens_at (daily_usage self) (day_key now) + tokens_used
  /\ config self' = config self.
Proof.
  unfold record_usage, tokens_at.
  destruct (int_mul_float tokens_used (unit_price self model)); simpl;
    rewrite !lookup_insert_eq; auto.
Qed.

Lemma record_usage_other_hour (now : clock) (self : t) (tokens_used : Z)
    (model k : string) :
  k <> hour_key now ->
  tokens_at (hourly_usage (record_usage now self tokens_used model).1) k
  = tokens_at (hourly_usage self) k.
Proof.
  intros Hk. unfold record_usage, tokens_at.
  destruct (int_mul_float tokens_used (unit_price self model)); simpl;
    rewrite lookup_insert_ne by congruence; reflexivity.
Qed.

(** Any run of [record_usage] calls in one hour bucket leaves in that
    bucket what was there plus the exact sum of the recorded tokens. *)
Lemma record_all_adds (hk : string) (calls : list (clock * Z * string)) :
  forall self : t,
    (forall call, In call calls -> hour_key call.1.1 = hk) ->
    tokens_at (hourly_usage (Scenario.record_all calls self)) hk
    = tokens_at (hourly_usage self) hk + Scenario.total calls
    /\ config (Scenario.record_all calls self) = config self.
Proof.
  induction calls as [|[[now tokens] model] calls IH]; intros self Hsame.
  - simpl. unfold Scenario.total. simpl. split; [lia | reflexivity].
  - assert (Hnow : hour_key now = hk) by (apply (Hsame (now, tokens, model)); left; reflexivity).
    destruct (IH (record_usage now self tokens model).1) as [Hsum Hcfg].
    { intros call Hin. apply Hsame. right. exact Hin. }
    destruct (record_usage_adds now self tokens model) as (Hadd & _ & Hcfg').
    unfold Scenario.record_all in *. simpl. rewrite Hsum, Hcfg, Hcfg'.
    rewrite <- Hnow, Hadd. unfold Scenario.total. simpl.
    split; [lia | reflexivity].
Qed.

(** X17.  With positive ceilings and token counts a float can hold,
    [get_current_usage] returns, and reports for the hour what was there
    plus the exact sum of the tokens recorded in that hour bucket. *)
Theorem usage_reports_the_recorded_sum (now : clock)
    (calls : list (clock * Z * string)) (self : t) :
  let self' := Scenario.record_all calls self in
  let tokens := tokens_at (hourly_usage self) (hour_key now)
                + Scenario.total calls in
  let daily_tokens := tokens_at (daily_usage self') (day_key now) in
  (forall call, In call calls -> hour_key call.1.1 = hour_key now) ->
  0 < max_tokens_per_hour (config self) ->
  0 < max_tokens_per_day (config self) ->
  Z.abs tokens < float_bound * max_tokens_per_hour (config self) ->
  Z.abs daily_tokens < float_bound * max_tokens_per_day (config self) ->
  exists u, get_current_usage now self' = Return u
            /\ h_tokens (hourly u) = tokens.
Proof.
  intros self' tokens daily_tokens Hsame Hh Hd Hfit Hdfit.
  destruct (record_all_adds (hour_key now) calls self Hsame) as [Hsum Hcfg].
  fold self' in Hsum, Hcfg. fold tokens in Hsum.
  unfold get_current_usage, percent. rewrite Hsum, Hcfg.
  destruct (true_div_defined tokens _ Hh Hfit) as [q Hq].
  destruct (true_div_defined daily_tokens _ Hd Hdfit) as [q' Hq'].
  fold daily_tokens. rewrite Hq, Hq'. simpl.
  eexists. split; reflexivity.
Qed.
(** The statistics test of the suite: after 100 and 200 tokens under a
    ceiling of 1000 the report shows 300 tokens and 30.0 percent; after
    three times 1000 tokens under a ceiling of 10000, 3000 tokens and 30.0
    percent. *)
Lemma budget_stats_scenario :
  let now := Scenario.morning in
  let c := Scenario.record_all
             [(now, 100, default_model); (now, 200, default_model)]
             (__init__ (Scenario.budget 1000)) in
  let c' := Scenario.record_all
              [(now, 1000, default_model); (now, 1000, default_model);
               (now, 1000, default_model)]
              (__init__ (Scenario.budget 10000)) in
  (exists u, get_current_usage now c = Return u
             /\ h_tokens (hourly u) = 300 /\ h_percent (hourly u) = 30%float)
  /\ (exists u, get_current_usage now c' = Return u
                /\ h_tokens (hourly u) = 3000 /\ h_percent (hourly u) = 30%float).
Proof. split; eexists; vm_compute; repeat split; reflexivity. Qed.

(** X21.  With an hourly ceiling of zero no call of [check_budget] returns: each
    path ends in an exception, the last one in the division by the
    ceiling. *)
Lemma zero_ceiling_check_never_returns (now : clock) (self : t)
    (estimated_tokens : Z) (model : string) :
  max_tokens_per_hour (config self) = 0 ->
  exists e, result (check_budget now self estimated_tokens model) = Raise e.
Proof.
  intros Hzero. unfold check_budget. cbv zeta. rewrite Hzero.
  destruct (estimated_tokens <? 0); [eexists; reflexivity|].
  destruct (0 <? estimated_tokens); [eexists; reflexivity|].
  destruct (0 <? _); [eexists; reflexivity|].
  destruct (_ <? _); [eexists; reflexivity|].
  destruct (int_mul_float _ _); [|eexists; reflexivity].
  destruct (_ <? _)%float; [eexists; reflexivity|].
  rewrite true_div_by_zero. eexists; reflexivity.
Qed.

(** X22.  With an hourly ceiling of zero [get_current_usage] never returns. *)
Lemma zero_ceiling_never_reports (now : clock) (self : t) :
  max_tokens_per_hour (config self) = 0 ->
  get_current_usage now self
  = Raise (new ZeroDivisionError [Lit "division by zero"]).
Proof.
  intros Hzero. unfold get_current_usage, percent. rewrite Hzero.
  rewrite true_div_by_zero. reflexivity.
Qed.
End CostFacts.

(** C4 (the code departs from the claim).  With an hourly ceiling of zero
    and nothing recorded, an estimate of zero meets the precondition and the
    sum 0 + 0 is within the ceiling, yet [check_budget] does not succeed: the
    computation of the alert divides by the ceiling and raises
    [ZeroDivisionError]. *)
Theorem zero_ceiling_check_divides_by_zero :
  CostController.result
    (CostController.check_budget Scenario.morning
       (CostController.__init__ (Scenario.budget 0)) 0
       CostController.default_model)
  = Raise (new ZeroDivisionError [Lit "division by zero"]).
Proof. vm_compute. reflexivity. Qed.

(** C5.  An estimate below zero, or above the hourly ceiling, is refused
    with [ValueError] whatever has been recorded, and the call leaves the
    controller, hence each of its three windows, as it was. *)
Theorem invalid_estimate_is_refused (now : CostController.clock)
    (self : CostController.t) (estimated_tokens : Z) (model : string) :
  estimated_tokens < 0
  \/ max_tokens_per_hour (CostController.config self) < estimated_tokens ->
  let r := CostController.check_budget now self estimated_tokens model in
  (exists msg, CostController.result r = Raise (new ValueError msg))
  /\ CostController.state r = self
  /\ CostController.hourly_usage (CostController.state r)
     = CostController.hourly_usage self
  /\ CostController.daily_usage (CostController.state r)
     = CostController.daily_usage self
  /\ CostController.hourly_cost (CostController.state r)
     = CostController.hourly_cost self.
Proof.
  intros Hinvalid r. subst r. unfold CostController.check_budget.
  destruct (Z.ltb_spec estimated_tokens 0) as [Hneg|Hnonneg].
  - simpl. repeat split; eauto.
  - destruct (Z.ltb_spec (max_tokens_per_hour (CostController.config self))
                estimated_tokens) as [Hbig|Hsmall]; [|lia].
    simpl. repeat split; eauto.
Qed.

(** C5 at the estimate -1, after 900 tokens have been recorded under a
    ceiling of 1000. *)
Lemma invalid_estimate_is_refused_witness :
  let self := (CostController.record_usage Scenario.morning
                 (CostController.__init__ (Scenario.budget 1000)) 900
                 CostController.default_model).1 in
  (-1 < 0 \/ max_tokens_per_hour (CostController.config self) < -1)
  /\ CostController.state
       (CostController.check_budget Scenario.morning self (-1)
          CostController.default_model) = self.
Proof.
  intros self. split.
  - left. lia.
  - apply (invalid_estimate_is_refused Scenario.morning self (-1)
             CostController.default_model).
    left. lia.
Defined.

(** C6 (the code departs from the claim).  With an hourly ceiling of zero,
    after [record_usage(5)] the window of the hour holds 5, yet
    [get_current_usage] reports nothing: computing the percentage divides by
    the ceiling and raises [ZeroDivisionError]. *)
Theorem zero_ceiling_report_divides_by_zero :
  let self := (CostController.record_usage Scenario.morning
                 (CostController.__init__ (Scenario.budget 0)) 5
                 CostController.default_model).1 in
  CostController.tokens_at (CostController.hourly_usage self)
    (CostController.hour_key Scenario.morning) = 5
  /\ CostController.get_current_usage Scenario.morning self
     = Raise (new ZeroDivisionError [Lit "division by zero"]).
Proof. vm_compute. split; reflexivity. Qed.

(* ===================================================================== *)
(** ** Further properties: providers                                       *)
(* ===================================================================== *)

Section RetryPassThrough.
Import BaseProvider Retry.
Context {R C : Type}.
Variable func : C -> C * outcome R.
Variable backoff_factor : float.

(** An exception that does not derive from [Exception] matches no
    [except] clause. *)
Lemma attempt_passes_through (fr : frame C) n attempt e :
  request_count (self fr) = Some n ->
  (func (callee fr)).2 = Raise e ->
  isinstance e Exception = false ->
  attempt_body func backoff_factor attempt fr =
    (attempted fr n (func (callee fr)).1, Raised e).
Proof.
  intros Hreq Hout Hbase. unfold attempt_body.
  rewrite (try_block_invokes func fr n Hreq), Hout. unfold handlers.
  assert (isinstance e RateLimitError = false
          /\ isinstance e APITimeoutError = false
          /\ isinstance e APIConnectionError = false
          /\ isinstance e APIError = false) as (-> & -> & -> & ->).
  { clear - Hbase. destruct e as [cl msg st x].
    unfold isinstance, issubclass in *; simpl in *.
    destruct cl; try discriminate; auto. }
  rewrite Hbase. reflexivity.
Qed.

(** X4.  On a provider that has both counters, when the wrapped function
    fails [k] times with retryable errors and then returns, the call returns
    that result; the function has been invoked [k + 1] times, the wrapper has
    slept [k] times, [request_count] has grown by [k + 1] and [error_count]
    is unchanged. *)
Theorem retry_returns_the_first_success (s : t) (c : C) (n m : Z)
    (max_retries : Z) (k : nat) (result : R) :
  request_count s = Some n ->
  error_count s = Some m ->
  Z.of_nat k < max_retries -> Z.of_nat k <= 1024 ->
  (forall j, (j < k)%nat -> fails_retryably func j c) ->
  outcome_of func k c = Return result ->
  exists fr,
    _execute_with_retry func s c max_retries backoff_factor = (fr, Return result)
    /\ invocations (trace fr) = S k
    /\ length (sleeps (trace fr)) = k
    /\ request_count (self fr) = Some (n + Z.of_nat k + 1)
    /\ error_count (self fr) = Some m.
Proof.
  intros Hreq Herr Hk Hbound Hfail Hout.
  destruct (success_after_retries func backoff_factor s c n m Hreq Herr
              max_retries k result Hk Hbound Hfail Hout)
    as (fr & Hcall & Hinv & Hsl & Hreq' & Herr').
  exists fr. repeat split; try assumption.
  rewrite Hsl. clear - Hfail. revert c Hfail.
  generalize 0 as i. induction k as [|k IH]; intros i c Hfail; [reflexivity|].
  simpl. destruct (Hfail O) as (e & He & _); [lia|].
  unfold outcome_of in He; simpl in He. rewrite He. simpl. f_equal.
  apply IH. intros j Hj. destruct (Hfail (S j)) as (e' & He' & Hr'); [lia|].
  exists e'. split; assumption.
Qed.

(** X5.  On a provider that has both counters, an exception of the wrapped
    function that does not derive from [Exception] (a cancellation) is
    neither retried nor wrapped: it leaves the call as it is, after [k + 1]
    invocations, and [error_count] is not touched. *)
Theorem base_exception_passes_through (s : t) (c : C) (n m : Z)
    (max_retries : Z) (k : nat) (e : exn) :
  request_count s = Some n ->
  error_count s = Some m ->
  Z.of_nat k < max_retries -> Z.of_nat k <= 1024 ->
  (forall j, (j < k)%nat -> fails_retryably func j c) ->
  outcome_of func k c = Raise e ->
  isinstance e Exception = false ->
  exists fr,
    _execute_with_retry func s c max_retries backoff_factor = (fr, Raise e)
    /\ invocations (trace fr) = S k
    /\ request_count (self fr) = Some (n + Z.of_nat k + 1)
    /\ error_count (self fr) = Some m.
Proof.
  intros Hreq Herr Hk Hbound Hfail Hout Hbase. unfold _execute_with_retry.
  set (fr0 := {| self := s; callee := c; last_exception := None; trace := [] |}).
  destruct (loop_after_retryable_prefix func backoff_factor max_retries k fr0 n)
    as (fr' & Hloop & Hreq' & Herr' & Hcallee' & Hinv' & _);
    [lia | lia | exact Hreq | exact Hfail |].
  unfold outcome_of in Hout. change c with (callee fr0) in Hout.
  rewrite <- Hcallee' in Hout.
  rewrite Hloop,
    (attempt_passes_through fr' _ (Z.of_nat k) e Hreq' Hout Hbase).
  eexists. split; [reflexivity|]. simpl.
  rewrite (invocations_snoc_invoke (trace fr')), Hinv', Herr'.
  simpl. rewrite Herr. repeat split; reflexivity || lia.
Qed.
End RetryPassThrough.

(** The wrapped function of the witnesses: two timeouts, then ["ok"]. *)
Lemma two_timeouts_fail_retryably (rest : list (outcome string)) (j : nat) :
  (j < 2)%nat ->
  Retry.fails_retryably Retry.scripted j
    (Raise Run.timeout_error :: Raise Run.timeout_error :: rest).
Proof.
  intros Hj. exists Run.timeout_error.
  destruct j as [|[|j]]; [split; reflexivity | split; reflexivity | lia].
Qed.

(** X4 at two timeouts followed by ["ok"], with the default parameters. *)
Lemma retry_returns_the_first_success_witness :
  exists fr,
    BaseProvider._execute_with_retry Retry.scripted Run.counted_provider
      [Raise Run.timeout_error; Raise Run.timeout_error; Return "ok"]
      3 1.5%float = (fr, Return "ok")
    /\ Retry.invocations (BaseProvider.trace fr) = 3%nat.
Proof.
  destruct (retry_returns_the_first_success Retry.scripted 1.5%float
              Run.counted_provider
              [Raise Run.timeout_error; Raise Run.timeout_error; Return "ok"]
              0 0 3 2 "ok")
    as (fr & Hcall & Hinv & _).
  - reflexivity.
  - reflexivity.
  - lia.
  - lia.
  - apply two_timeouts_fail_retryably.
  - reflexivity.
  - exists fr. split; [exact Hcall | exact Hinv].
Defined.

(** X5 at two timeouts followed by a cancellation. *)
Lemma base_exception_passes_through_witness :
  exists fr,
    BaseProvider._execute_with_retry (R := string) Retry.scripted
      Run.counted_provider
      [Raise Run.timeout_error; Raise Run.timeout_error; Raise Run.cancelled]
      3 1.5%float = (fr, Raise Run.cancelled)
    /\ BaseProvider.error_count (BaseProvider.self fr) = Some 0.
Proof.
  destruct (base_exception_passes_through (R := string) Retry.scripted
              1.5%float Run.counted_provider
              [Raise Run.timeout_error; Raise Run.timeout_error;
               Raise Run.cancelled]
              0 0 3 2 Run.cancelled)
    as (fr & Hcall & _ & _ & Herr).
  - reflexivity.
  - reflexivity.
  - lia.
  - lia.
  - apply two_timeouts_fail_retryably.
  - reflexivity.
  - reflexivity.
  - exists fr. split; [exact Hcall | exact Herr].
Defined.

(** X1 at three timeouts and [max_retries = 3]. *)
Lemma retries_exhausted_witness :
  exists fr e,
    BaseProvider._execute_with_retry (R := string) Retry.scripted
      Run.counted_provider
      [Raise Run.timeout_error; Raise Run.timeout_error; Raise Run.timeout_error]
      3 1.5%float = (fr, Raise e)
    /\ isinstance e ProviderError = true
    /\ BaseProvider.request_count (BaseProvider.self fr) = Some (0 + 3)
    /\ BaseProvider.error_count (BaseProvider.self fr) = Some (0 + 1).
Proof.
  destruct (retries_exhausted (R := string) Retry.scripted 1.5%float
              Run.counted_provider
              [Raise Run.timeout_error; Raise Run.timeout_error;
               Raise Run.timeout_error]
              0 0 eq_refl eq_refl 3)
    as (fr & e & Hcall & Hcls & Hreq & Herr & _).
  - lia.
  - intros j Hj. exists Run.timeout_error.
    destruct j as [|[|[|j]]]; try (split; reflexivity).
    simpl in Hj. lia.
  - exists fr, e. repeat split; assumption.
Defined.

(** X2 at a timeout followed by a 400 response. *)
Lemma client_error_not_retried_witness :
  exists fr,
    BaseProvider._execute_with_retry (R := string) Retry.scripted
      Run.counted_provider
      [Raise Run.timeout_error; Raise Run.bad_request; Return "ok"]
      3 1.5%float =
      (fr, Raise (during Run.bad_request
                    (new ProviderError
                       (Lit "Client error: " :: str Run.bad_request))))
    /\ Retry.invocations (BaseProvider.trace fr) = 2%nat.
Proof.
  destruct (client_error_not_retried (R := string) Retry.scripted 1.5%float
              Run.counted_provider
              [Raise Run.timeout_error; Raise Run.bad_request; Return "ok"]
              0 0 eq_refl eq_refl 3 1 Run.bad_request)
    as (fr & Hcall & Hinv & _).
  - lia.
  - lia.
  - intros j Hj. exists Run.timeout_error.
    destruct j as [|j]; [split; reflexivity | lia].
  - reflexivity.
  - reflexivity.
  - exists fr. split; [exact Hcall | exact Hinv].
Defined.

(** X3 at a timeout followed by a [ValueError]. *)
Lemma unexpected_error_not_retried_witness :
  exists fr,
    BaseProvider._execute_with_retry (R := string) Retry.scripted
      Run.counted_provider
      [Raise Run.timeout_error; Raise (new ValueError [Lit "boom"]); Return "ok"]
      3 1.5%float =
      (fr, Raise (new ProviderError [Lit "Unexpected error: "; Lit "boom"]))
    /\ BaseProvider.error_count (BaseProvider.self fr) = Some (0 + 1).
Proof.
  destruct (unexpected_error_not_retried (R := string) Retry.scripted 1.5%float
              Run.counted_provider
              [Raise Run.timeout_error; Raise (new ValueError [Lit "boom"]);
               Return "ok"]
              0 0 eq_refl eq_refl 3 1 (new ValueError [Lit "boom"]))
    as (fr & Hcall & _ & _ & _ & Herr).
  - lia.
  - lia.
  - intros j Hj. exists Run.timeout_error.
    destruct j as [|j]; [split; reflexivity | lia].
  - reflexivity.
  - reflexivity.
  - exists fr. split; [exact Hcall | exact Herr].
Defined.

(** X6.  [chat] of a remote provider as its constructor builds it: whatever
    the closure would do and whatever the backend is, the call raises
    [AttributeError], the closure is never run and the backend is left as it
    was. *)
Theorem remote_chat_never_reaches_the_backend {R C : Type}
    (_call : C -> C * outcome R) (cls : string) (cfg : ProviderConfig)
    (backend : C) :
  let call := RemoteProvider.chat _call (BaseProvider.__init__ cls cfg) backend in
  call.2 = Raise (no_attribute cls "error_count")
  /\ Retry.invocations (BaseProvider.trace call.1) = 0%nat
  /\ BaseProvider.callee call.1 = backend.
Proof.
  intros call. subst call. unfold RemoteProvider.chat.
  pose proof (execute_with_retry_without_counters _call
                (BaseProvider.__init__ cls cfg) backend
                BaseProvider.default_max_retries
                BaseProvider.default_backoff_factor eq_refl eq_refl) as H.
  destruct (BaseProvider._execute_with_retry _ _ _ _ _) as [fr res].
  destruct H as (-> & Htrace & Hcallee & _). simpl.
  rewrite Htrace, Hcallee. repeat split; reflexivity.
Qed.

(** X7.  [is_available] never lets an exception deriving from [Exception]
    out: such a failure of the health check reads as "not available"; with
    the health check of the base class the answer is [True]. *)
Theorem availability_check_swallows_exceptions
    (health_check : BaseProvider.t -> outcome bool) (self : BaseProvider.t) :
  (forall e, BaseProvider.is_available health_check self = Raise e ->
             isinstance e Exception = false /\ health_check self = Raise e)
  /\ (forall e, health_check self = Raise e -> isinstance e Exception = true ->
                BaseProvider.is_available health_check self = Return false)
  /\ BaseProvider.is_available BaseProvider._health_check self = Return true.
Proof.
  unfold BaseProvider.is_available. split; [|split].
  - intros e. destruct (health_check self) as [b|e0]; [discriminate|].
    destruct (isinstance e0 Exception) eqn:Hexc; [discriminate|].
    intros [= <-]. auto.
  - intros e -> ->. reflexivity.
  - reflexivity.
Qed.

(* ===================================================================== *)
(** ** Further properties: orchestrator, earlier provider, helpers         *)
(* ===================================================================== *)

(** X8.  [chat] of the earlier [DeepSeekProvider]: whenever it raises an
    exception deriving from [Exception], that exception is a plain
    [Exception], whatever class the backend failure had; its text is
    "DeepSeek API error: " followed by the text of the failure, which is
    kept as context. *)
Theorem backend_failure_becomes_plain_exception (self : DeepSeekProvider.t)
    (prompt : string) (params : option schemas.GenerationParams) (e : exn) :
  DeepSeekProvider.chat self prompt params = Raise e ->
  isinstance e Exception = true ->
  exc_type e = Exception
  /\ exists cause,
       context e = Some cause
       /\ str e = Lit "DeepSeek API error: " :: str cause
       /\ isinstance cause Exception = true.
Proof.
  unfold DeepSeekProvider.chat.
  destruct (DeepSeekProvider.client self _) as [content|cause]; [discriminate|].
  destruct (isinstance cause Exception) eqn:Hcause.
  - intros [= <-] _. split; [reflexivity|]. exists cause. auto.
  - intros [= <-] He. congruence.
Qed.

(** X8 at the provider whose backend is rate limited. *)
Lemma backend_failure_becomes_plain_exception_witness :
  exc_type (Exn Exception [Lit "DeepSeek API error: "; Lit "rate limit reached"]
              None (Some Scenario.rate_limit)) = Exception
  /\ exists cause,
       context (Exn Exception
                  [Lit "DeepSeek API error: "; Lit "rate limit reached"]
                  None (Some Scenario.rate_limit)) = Some cause
       /\ str (Exn Exception
                 [Lit "DeepSeek API error: "; Lit "rate limit reached"]
                 None (Some Scenario.rate_limit))
          = Lit "DeepSeek API error: " :: str cause
       /\ isinstance cause Exception = true.
Proof.
  apply (backend_failure_becomes_plain_exception Scenario.failing "ping" None);
    reflexivity.
Defined.

Section OrchestratorRuns.
Import AIOrchestrator.
Context {P Resp : Type}.
Variable provider_chat : P -> string -> schemas.GenerationParams -> outcome Resp.

Lemma set_keeps_first_key (k0 k : string) (v v' : P) (d : dict P) :
  exists d',
    set ((k0, v) :: d) k v' = (k0, if String.eqb k k0 then v' else v) :: d'.
Proof.
  simpl. rewrite (String.eqb_sym k k0).
  destruct (String.eqb_spec k0 k) as [->|_]; eexists; reflexivity.
Qed.

Lemma register_all_keeps_first_key (items : list (string * P)) :
  forall (self : t P Resp) (k0 : string) (p : P) (d : dict P),
    providers self = (k0, p) :: d ->
    exists d',
      providers (Run.register_all items self) = (k0, Run.latest k0 items p) :: d'.
Proof.
  induction items as [|[k v] items IH]; intros self k0 p d Hself.
  - exists d. exact Hself.
  - destruct (set_keeps_first_key k0 k p v d) as [d1 Hset].
    change (Run.register_all ((k, v) :: items) self)
      with (Run.register_all items (register_provider self k v)).
    change (Run.latest k0 ((k, v) :: items) p)
      with (Run.latest k0 items (if String.eqb k k0 then v else p)).
    apply (IH _ k0 _ d1). simpl. rewrite Hself. exact Hset.
Qed.

(** X9.  After any sequence of registrations, [chat] calls one provider
    only: the one registered last under the name that was registered first.
    Providers registered under other names are never called. *)
Theorem first_registered_name_is_consulted (k0 : string) (p0 : P)
    (rest : list (string * P)) (prompt model : string) :
  let o := Run.register_all ((k0, p0) :: rest) __init__ in
  contacted (chat provider_chat o prompt model) = [k0]
  /\ result (chat provider_chat o prompt model)
     = provider_chat (Run.latest k0 rest p0) prompt
         (schemas.GenerationParams_of_model model).
Proof.
  intros o.
  destruct (register_all_keeps_first_key rest
              (register_provider __init__ k0 p0) k0 p0 []) as [d' Hd'];
    [reflexivity|].
  apply (chat_consults_first_provider_only provider_chat o k0
           (Run.latest k0 rest p0) d').
  exact Hd'.
Qed.

(** One call of [chat]: a call that returns appends one entry with its
    model; a call that raises leaves the orchestrator as it was. *)
Lemma chat_records_answers_only (self : t P Resp) (prompt model : string) :
  let r := chat provider_chat self prompt model in
  match result r with
  | Return response =>
      request_history (after r) =
        request_history self
        ++ [{| h_prompt := prompt; h_model := model; h_response := response |}]
      /\ providers (after r) = providers self
  | Raise _ => after r = self
  end.
Proof.
  unfold chat. destruct (providers self) as [|[key provider] rest]; simpl.
  - reflexivity.
  - destruct (provider_chat provider prompt _); simpl; auto.
Qed.

Lemma requests_for_snoc (self self' : t P Resp) (prompt model : string)
    (response : Resp) (m : string) :
  request_history self' =
    request_history self
    ++ [{| h_prompt := prompt; h_model := model; h_response := response |}] ->
  requests_for m self' =
    requests_for m self + (if String.eqb model m then 1 else 0)
  /\ length (request_history self') = S (length (request_history self)).
Proof.
  intros Hhist. unfold requests_for. rewrite Hhist.
  rewrite List.filter_app, !length_app. simpl.
  destruct (String.eqb model m); simpl; lia.
Qed.

Lemma buckets_within_total (history : list (history_entry Resp)) :
  (length (List.filter (fun r => String.eqb (h_model r) "deepseek-chat") history)
   + length (List.filter (fun r => String.eqb (h_model r) "deepseek-reasoning")
                         history)
   <= length history)%nat.
Proof.
  induction history as [|r history IH]; simpl; [lia|].
  destruct (String.eqb_spec (h_model r) "deepseek-chat") as [Heq|_];
    destruct (String.eqb_spec (h_model r) "deepseek-reasoning") as [Heq'|_];
    simpl; try lia.
  rewrite Heq in Heq'. discriminate.
Qed.

Lemma history_after_chats (calls : list (string * string)) :
  forall self : t P Resp,
    length (request_history (Run.chat_all provider_chat calls self))
    = (length (request_history self)
       + length (Run.answered provider_chat calls self))%nat
    /\ (forall m,
          requests_for m (Run.chat_all provider_chat calls self)
          = requests_for m self
            + Run.asking m (Run.answered provider_chat calls self)).
Proof.
  induction calls as [|[prompt model] calls IH]; intros self.
  - simpl. unfold Run.asking. simpl. split; [lia | intros m; lia].
  - cbn [Run.chat_all Run.answered].
    pose proof (chat_records_answers_only self prompt model) as Hstep.
    cbv zeta in Hstep.
    destruct (IH (after (chat provider_chat self prompt model)))
      as (Htotal & Hper).
    rewrite Htotal.
    destruct (result (chat provider_chat self prompt model)) as [resp|e].
    + destruct Hstep as [Hhist _]. split.
      * destruct (requests_for_snoc self _ prompt model resp model Hhist)
          as [_ Hone].
        rewrite Hone. cbn [app length]. lia.
      * intros m. rewrite Hper.
        destruct (requests_for_snoc self _ prompt model resp m Hhist)
          as [Hone _].
        rewrite Hone. unfold Run.asking. cbn [app List.filter snd].
        destruct (String.eqb model m); cbn [length]; lia.
    + cbn [app]. split.
      * rewrite Hstep. lia.
      * intros m. rewrite Hper, Hstep. lia.
Qed.

(** X10.  [get_analytics] counts the calls of [chat] that returned: after
    any run of calls, [total_requests] has grown by the number of calls that
    returned and the count of each model by the number of those that asked
    for it; calls that raised leave no trace.  The two reported models never
    add up to more than the total. *)
Theorem analytics_count_answered_chats (calls : list (string * string))
    (self : t P Resp) :
  let o := Run.chat_all provider_chat calls self in
  let answered := Run.answered provider_chat calls self in
  total_requests (get_analytics o)
  = total_requests (get_analytics self) + Z.of_nat (length answered)
  /\ models_used (get_analytics o)
     = [("deepseek-chat",
         requests_for "deepseek-chat" self + Run.asking "deepseek-chat" answered);
        ("deepseek-reasoning",
         requests_for "deepseek-reasoning" self
         + Run.asking "deepseek-reasoning" answered)]
  /\ requests_for "deepseek-chat" o + requests_for "deepseek-reasoning" o
     <= total_requests (get_analytics o).
Proof.
  intros o answered. subst o answered.
  destruct (history_after_chats calls self) as [Htotal Hper].
  unfold get_analytics. cbn [total_requests models_used].
  rewrite Htotal, !Hper. split; [lia|]. split; [reflexivity|].
  rewrite <- !Hper, <- Htotal. unfold requests_for.
  pose proof (buckets_within_total
                (request_history (Run.chat_all provider_chat calls self))).
  lia.
Qed.

Lemma chat_is_counted_under_its_model (ai : t P Resp) (prompt model : string) :
  Run.counted_under model ai (chat provider_chat ai prompt model).
Proof.
  unfold Run.counted_under.
  pose proof (chat_records_answers_only ai prompt model) as Hstep.
  simpl in Hstep.
  destruct (result (chat provider_chat ai prompt model)) as [resp|e];
    [|exact Hstep].
  destruct Hstep as [Hhist _].
  split; [|split].
  - destruct (requests_for_snoc ai _ prompt model resp model Hhist) as [H _].
    rewrite H, String.eqb_refl. reflexivity.
  - intros m' Hne.
    destruct (requests_for_snoc ai _ prompt model resp m' Hhist) as [H _].
    rewrite H. destruct (String.eqb_spec model m'); [congruence | lia].
  - destruct (requests_for_snoc ai _ prompt model resp model Hhist) as [_ H].
    unfold get_analytics. cbn [total_requests]. rewrite H. lia.
Qed.
End OrchestratorRuns.

Section HelperFacts.
Context {P : Type}.
Variable provider_chat : P -> string -> schemas.GenerationParams -> outcome string.
Variable loads : string -> outcome utils.json.

(** X11.  The helpers ask for fixed models, and the analytics count them
    there: a call of [generate_html_tailwind] that returns adds one request
    under "deepseek-chat", one of [analyze_sales_data] or
    [analyze_traffic_data] one under "deepseek-reasoning"; every other count
    stays, and a call that raises leaves the orchestrator as it was. *)
Theorem helpers_ask_their_model (ai : AIOrchestrator.t P string)
    (text : string) :
  Run.counted_under "deepseek-chat" ai
    (utils.generate_html_tailwind provider_chat ai text)
  /\ Run.counted_under "deepseek-reasoning" ai
       (utils.analyze_sales_data provider_chat ai text)
  /\ Run.counted_under "deepseek-reasoning" ai
       (utils.analyze_traffic_data provider_chat ai text).
Proof. repeat split; apply chat_is_counted_under_its_model. Qed.

(** X12.  [fill_form_fields] raises only what the call of [chat] raises:
    the "no providers" error of the orchestrator, or the exception of the
    first registered provider.  A reply that cannot be parsed never raises,
    whatever the parser does. *)
Theorem fill_form_fields_raises_only_with_chat (ai : AIOrchestrator.t P string)
    (user_input : string) (fields : list string) (e : exn) :
  (utils.fill_form_fields provider_chat loads ai user_input fields).2 = Raise e ->
  (AIOrchestrator.providers ai = []
   /\ e = new ValueError [Lit "No AI providers configured"])
  \/ (exists key provider rest prompt,
        AIOrchestrator.providers ai = (key, provider) :: rest
        /\ provider_chat provider prompt
             (schemas.GenerationParams_of_model "deepseek-chat") = Raise e).
Proof.
  unfold utils.fill_form_fields, AIOrchestrator.chat.
  destruct (AIOrchestrator.providers ai) as [|[key provider] rest]; cbv zeta.
  - simpl. intros [= <-]. left. auto.
  - destruct (provider_chat provider _ _) as [response|e0] eqn:Hchat; simpl.
    + discriminate.
    + intros [= <-]. right. eauto 10.
Qed.
End HelperFacts.

(** X12 at an orchestrator whose only provider is rate limited, with a
    parser that fails on every input. *)
Lemma fill_form_fields_raises_only_with_chat_witness :
  let e := Exn Exception [Lit "DeepSeek API error: "; Lit "rate limit reached"]
             None (Some Scenario.rate_limit) in
  let ai := Scenario.orchestrator [("p1", Scenario.failing)] in
  (AIOrchestrator.providers ai = []
   /\ e = new ValueError [Lit "No AI providers configured"])
  \/ (exists key provider rest prompt,
        AIOrchestrator.providers ai = (key, provider) :: rest
        /\ Scenario.provider_chat provider prompt
             (schemas.GenerationParams_of_model "deepseek-chat") = Raise e).
Proof.
  apply (fill_form_fields_raises_only_with_chat Scenario.provider_chat
           (fun _ => Raise (new ValueError [Lit "not JSON"]))
           (Scenario.orchestrator [("p1", Scenario.failing)])
           "name: Ada" ["name"; "email"]).
  reflexivity.
Defined.

(* ===================================================================== *)
(** ** Further properties: the cost controller                             *)
(* ===================================================================== *)

Section CostMore.
Import CostController.

Lemma filter_newer_lookup {A : Type} (threshold k : string) (m : gmap string A) :
  filter (λ kv, newer threshold kv.1 = true) m !! k
  = if newer threshold k then m !! k else None.
Proof.
  destruct (newer threshold k) eqn:Hnewer.
  - apply lookup_newer. exact Hnewer.
  - apply map_lookup_filter_None. right. intros x _. simpl. congruence.
Qed.

Lemma filter_newer_twice {A : Type} (threshold : string) (m : gmap string A) :
  filter (λ kv, newer threshold kv.1 = true)
         (filter (λ kv, newer threshold kv.1 = true) m)
  = filter (λ kv, newer threshold kv.1 = true) m.
Proof.
  apply map_eq. intros k. rewrite !filter_newer_lookup.
  destruct (newer threshold k); reflexivity.
Qed.

Lemma cleanup_twice (now : clock) (self : t) :
  _cleanup_old_entries now (_cleanup_old_entries now self)
  = _cleanup_old_entries now self.
Proof.
  unfold _cleanup_old_entries. simpl. rewrite !filter_newer_twice. reflexivity.
Qed.

(** The controller after [check_budget]: untouched when the estimate is
    invalid, cleaned otherwise, whatever the verdict. *)
Lemma state_after_check (now : clock) (self : t) (estimated_tokens : Z)
    (model : string) :
  state (check_budget now self estimated_tokens model)
  = if (estimated_tokens <? 0)
       || (max_tokens_per_hour (config self) <? estimated_tokens)
    then self else _cleanup_old_entries now self.
Proof.
  unfold check_budget. cbv zeta.
  destruct (estimated_tokens <? 0); [reflexivity|].
  destruct (max_tokens_per_hour (config self) <? estimated_tokens);
    [reflexivity|]. simpl orb. cbv iota.
  repeat match goal with
         | |- context [if ?b then _ else _] => destruct b
         | |- context [match ?o with Return _ => _ | Raise _ => _ end] =>
             destruct o
         end; reflexivity.
Qed.

Lemma check_after_cleanup (now : clock) (self : t) (estimated_tokens : Z)
    (model : string) :
  (estimated_tokens <? 0)
  || (max_tokens_per_hour (config self) <? estimated_tokens) = false ->
  check_budget now (_cleanup_old_entries now self) estimated_tokens model
  = check_budget now self estimated_tokens model.
Proof.
  intros Hvalid. apply orb_false_elim in Hvalid as [Hneg Hbig].
  unfold check_budget. cbv zeta.
  change (config (_cleanup_old_entries now self)) with (config self).
  rewrite Hneg, Hbig, cleanup_twice. reflexivity.
Qed.

(** X15.  [check_budget] reserves nothing: repeated with the same reading
    of the clock, estimate and model on the controller it left, it gives the
    same verdict and leaves the same controller. *)
Theorem check_budget_is_repeatable (now : clock) (self : t)
    (estimated_tokens : Z) (model : string) :
  let r := check_budget now self estimated_tokens model in
  check_budget now (state r) estimated_tokens model = r.
Proof.
  intros r. subst r. rewrite state_after_check.
  destruct ((estimated_tokens <? 0)
            || (max_tokens_per_hour (config self) <? estimated_tokens))
    eqn:Hvalid; [reflexivity|].
  apply check_after_cleanup. exact Hvalid.
Qed.

(** X16.  A call of [check_budget] with a valid estimate evicts, whatever
    its verdict, exactly the hour windows whose key is not above the hour
    threshold and the day windows whose key is not above the day threshold;
    the windows it keeps hold what they held. *)
Theorem check_budget_evicts_stale_windows (now : clock) (self : t)
    (estimated_tokens : Z) (model : string) :
  0 <= estimated_tokens <= max_tokens_per_hour (config self) ->
  let after := state (check_budget now self estimated_tokens model) in
  forall k,
    hourly_usage after !! k
    = (if newer (hour_threshold now) k then hourly_usage self !! k else None)
    /\ hourly_cost after !! k
       = (if newer (hour_threshold now) k then hourly_cost self !! k else None)
    /\ daily_usage after !! k
       = (if newer (day_threshold now) k then daily_usage self !! k else None).
Proof.
  intros Hvalid after k. subst after. rewrite state_after_check.
  destruct (Z.ltb_spec estimated_tokens 0); [lia|].
  destruct (Z.ltb_spec (max_tokens_per_hour (config self)) estimated_tokens);
    [lia|].
  simpl. rewrite !filter_newer_lookup. auto.
Qed.

(** X14.  When the hourly ceiling is positive and not exceeded and the cost
    ceiling is not in the way, [check_budget] returns [True] exactly when the
    tokens of the current day plus the estimate stay within the daily
    ceiling, and raises the daily [BudgetExceededException] exactly when they
    pass it. *)
Theorem daily_ceiling_is_inclusive (now : clock) (self : t)
    (estimated_tokens : Z) (model : string) :
  let limit := max_tokens_per_hour (config self) in
  let used := tokens_at (hourly_usage self) (hour_key now) in
  let today := tokens_at (daily_usage self) (day_key now) in
  let outcome := result (check_budget now self estimated_tokens model) in
  Scenario.sane now ->
  0 < limit ->
  0 <= estimated_tokens <= limit ->
  - (float_bound * limit) < used + estimated_tokens <= limit ->
  (exists cost,
      int_mul_float estimated_tokens (unit_price self model) = Return cost
      /\ (max_cost_per_hour (config self)
            <? cost_at (hourly_cost self) (hour_key now) + cost)%float = false) ->
  (outcome = Return true
   <-> today + estimated_tokens <= max_tokens_per_day (config self))
  /\ (outcome = Raise (new BudgetExceededException
                         [Lit "Budget giornaliero superato: ";
                          Int (today + estimated_tokens); Lit " / ";
                          Int (max_tokens_per_day (config self))])
      <-> max_tokens_per_day (config self) < today + estimated_tokens).
Proof.
  intros limit used today outcome Hsane Hlimit Hest Hhour (cost & Hcost & Hfits).
  destruct (cleanup_keeps_current now self Hsane) as (Hh & Hd & Hc).
  assert (Hbound : limit < float_bound * limit).
  { assert (1 < float_bound) by (vm_compute; reflexivity). nia. }
  subst outcome. unfold check_budget. cbv zeta.
  change (max_tokens_per_hour (config self)) with limit.
  destruct (Z.ltb_spec estimated_tokens 0); [lia|].
  destruct (Z.ltb_spec limit estimated_tokens); [lia|].
  change (config (_cleanup_old_entries now self)) with (config self).
  change (unit_price (_cleanup_old_entries now self) model)
    with (unit_price self model).
  rewrite Hh, Hd, Hc. fold used. fold limit. fold today.
  destruct (Z.ltb_spec limit (used + estimated_tokens)); [lia|].
  destruct (Z.ltb_spec (max_tokens_per_day (config self))
              (today + estimated_tokens)) as [Hover|Hwithin].
  { simpl. split; split; try lia; try discriminate. reflexivity. }
  rewrite Hcost, Hfits.
  destruct (true_div_defined (used + estimated_tokens) limit) as [q Hq];
    [lia | lia |].
  rewrite Hq. simpl. split; split; try lia; try reflexivity; discriminate.
Qed.

(** X18.  [record_usage] writes to the current buckets only: the tokens go
    to the window of the current hour and of the current day, every other
    hour, day and cost window keeps its content, and the configuration and
    the price table are not touched. *)
Theorem record_usage_touches_current_buckets_only (now : clock) (self : t)
    (tokens_used : Z) (model : string) :
  let self' := (record_usage now self tokens_used model).1 in
  hourly_usage self' !! hour_key now
  = Some (tokens_at (hourly_usage self) (hour_key now) + tokens_used)
  /\ daily_usage self' !! day_key now
     = Some (tokens_at (daily_usage self) (day_key now) + tokens_used)
  /\ (forall k, k <> hour_key now ->
        hourly_usage self' !! k = hourly_usage self !! k
        /\ hourly_cost self' !! k = hourly_cost self !! k)
  /\ (forall k, k <> day_key now -> daily_usage self' !! k = daily_usage self !! k)
  /\ config self' = config self
  /\ token_costs self' = token_costs self.
Proof.
  unfold record_usage.
  destruct (int_mul_float tokens_used (unit_price self model)); simpl;
    rewrite !lookup_insert_eq;
    (split; [reflexivity|]); (split; [reflexivity|]);
    (split; [intros k Hk; rewrite ?lookup_insert_ne by congruence; auto|]);
    (split; [intros k Hk; rewrite ?lookup_insert_ne by congruence; auto|]);
    auto.
Qed.

(** X19.  A token count too large for a float is counted but not priced:
    [record_usage] raises [OverflowError] after it has added the tokens to
    the hour and day windows, and the cost window is left as it was. *)
Theorem oversized_usage_is_counted_but_not_priced (now : clock) (self : t)
    (tokens_used : Z) (model : string) :
  float_bound <= Z.abs tokens_used ->
  let r := record_usage now self tokens_used model in
  r.2 = Raise (new OverflowError [Lit "int too large to convert to float"])
  /\ tokens_at (hourly_usage r.1) (hour_key now)
     = tokens_at (hourly_usage self) (hour_key now) + tokens_used
  /\ tokens_at (daily_usage r.1) (day_key now)
     = tokens_at (daily_usage self) (day_key now) + tokens_used
  /\ hourly_cost r.1 = hourly_cost self.
Proof.
  intros Hbig r. subst r. unfold record_usage, int_mul_float, float_of_int.
  destruct (Z.leb_spec float_bound (Z.abs tokens_used)); [|lia].
  simpl. unfold tokens_at. rewrite !lookup_insert_eq. auto.
Qed.

Lemma apply_keeps_settings (self : t) (op : Run.operation) :
  config (Run.apply self op) = config self
  /\ token_costs (Run.apply self op) = token_costs self.
Proof.
  destruct op as [now est model|now tokens model|]; simpl.
  - rewrite state_after_check.
    destruct ((est <? 0) || (max_tokens_per_hour (config self) <? est)); auto.
  - unfold record_usage.
    destruct (int_mul_float tokens (unit_price self model)); auto.
  - auto.
Qed.

(** X20.  [reset_budgets] brings a controller back to the state in which
    its constructor left it, whatever checks, recordings and resets came
    before. *)
Theorem reset_restores_the_initial_controller (cfg : BudgetConfig)
    (ops : list Run.operation) :
  reset_budgets (Run.apply_all ops (__init__ cfg)) = __init__ cfg.
Proof.
  assert (Hkeep : forall self,
             config (Run.apply_all ops self) = config self
             /\ token_costs (Run.apply_all ops self) = token_costs self).
  { unfold Run.apply_all. induction ops as [|op ops IH]; intros self; simpl;
      [auto|].
    destruct (IH (Run.apply self op)) as [Hc Ht].
    destruct (apply_keeps_settings self op) as [Hc' Ht'].
    rewrite Hc, Ht, Hc', Ht'. auto. }
  destruct (Hkeep (__init__ cfg)) as [Hc Ht].
  unfold reset_budgets. rewrite Hc, Ht. reflexivity.
Qed.
End CostMore.

(** X13 at 900 recorded tokens, a ceiling of 1000 and an estimate of 100:
    the boundary is accepted. *)
Lemma hourly_ceiling_is_inclusive_witness :
  CostController.result
    (CostController.check_budget Scenario.morning Run.busy 100
       CostController.default_model) = Return true.
Proof.
  pose proof (hourly_ceiling_is_inclusive Scenario.morning Run.busy 100
                CostController.default_model) as H.
  cbv zeta in H. destruct H as [[_ Hyes] _].
  - split; reflexivity.
  - reflexivity.
  - split; discriminate.
  - reflexivity.
  - discriminate.
  - eexists. split; vm_compute; reflexivity.
  - apply Hyes. discriminate.
Defined.

(** X14 at the same controller and estimate. *)
Lemma daily_ceiling_is_inclusive_witness :
  CostController.result
    (CostController.check_budget Scenario.morning Run.busy 100
       CostController.default_model) = Return true.
Proof.
  pose proof (daily_ceiling_is_inclusive Scenario.morning Run.busy 100
                CostController.default_model) as H.
  cbv zeta in H. destruct H as [[_ Hyes] _].
  - split; reflexivity.
  - reflexivity.
  - split; discriminate.
  - split; [reflexivity | discriminate].
  - eexists. split; vm_compute; reflexivity.
  - apply Hyes. discriminate.
Defined.

(** X16 at a window recorded at seven and a check at ten: the window of
    seven is gone. *)
Lemma check_budget_evicts_stale_windows_witness :
  CostController.hourly_usage
    (CostController.state
       (CostController.check_budget Scenario.morning Run.early 100
          CostController.default_model)) !! "2026-11-03-07" = None.
Proof.
  apply (check_budget_evicts_stale_windows Scenario.morning Run.early 100
           CostController.default_model).
  split; discriminate.
Defined.

(** X17 at 100 and 200 tokens recorded under a ceiling of 1000. *)
Lemma usage_reports_the_recorded_sum_witness :
  exists u,
    CostController.get_current_usage Scenario.morning
      (Scenario.record_all
         [(Scenario.morning, 100, CostController.default_model);
          (Scenario.morning, 200, CostController.default_model)]
         (CostController.__init__ (Scenario.budget 1000))) = Return u
    /\ CostController.h_tokens (CostController.hourly u) = 300.
Proof.
  apply (usage_reports_the_recorded_sum Scenario.morning
           [(Scenario.morning, 100, CostController.default_model);
            (Scenario.morning, 200, CostController.default_model)]
           (CostController.__init__ (Scenario.budget 1000))).
  - intros call [<-|[<-|[]]]; reflexivity.
  - reflexivity.
  - reflexivity.
  - reflexivity.
  - reflexivity.
Defined.

(** X19 at 2^1024 tokens. *)
Lemma oversized_usage_is_counted_but_not_priced_witness :
  (CostController.record_usage Scenario.morning
     (CostController.__init__ (Scenario.budget 1000)) (2 ^ 1024)
     CostController.default_model).2
  = Raise (new OverflowError [Lit "int too large to convert to float"]).
Proof.
  apply (oversized_usage_is_counted_but_not_priced Scenario.morning
           (CostController.__init__ (Scenario.budget 1000)) (2 ^ 1024)
           CostController.default_model).
  discriminate.
Defined.

(** X21 at a ceiling of zero and an estimate of 5. *)
Lemma zero_ceiling_check_never_returns_witness :
  exists e,
    CostController.result
      (CostController.check_budget Scenario.morning
         (CostController.__init__ (Scenario.budget 0)) 5
         CostController.default_model) = Raise e.
Proof.
  apply (zero_ceiling_check_never_returns Scenario.morning
           (CostController.__init__ (Scenario.budget 0)) 5
           CostController.default_model).
  reflexivity.
Defined.

(** X22 at a new controller with a ceiling of zero. *)
Lemma zero_ceiling_never_reports_witness :
  CostController.get_current_usage Scenario.morning
    (CostController.__init__ (Scenario.budget 0))
  = Raise (new ZeroDivisionError [Lit "division by zero"]).
Proof.
  apply (zero_ceiling_never_reports Scenario.morning
           (CostController.__init__ (Scenario.budget 0))).
  reflexivity.
Defined.

(* ===================================================================== *)
(** ** Further properties: tools                                           *)
(* ===================================================================== *)

Section ToolsRuns.
Import ToolsManager.
Context {V J : Type}.

Lemma registrations_from (rs : list (Run.registration V J)) :
  forall m : t V J,
    well_formed (tools m) ->
    let m' := fold_left Run.register rs m in
    well_formed (tools m')
    /\ tool_definitions m' = tool_definitions m ++ map Run.definition_of rs
    /\ (forall n, In n (keys (tools m'))
                  <-> In n (keys (tools m)) \/ In n (map Run.reg_name rs))
    /\ (forall n, get (tools m') n
                  = match fold_left
                            (fun acc r => if String.eqb (Run.reg_name r) n
                                          then Some (Run.reg_function r) else acc)
                            rs None with
                    | Some h => Some h
                    | None => get (tools m) n
                    end).
Proof.
  induction rs as [|r rs IH]; intros m Hwf; simpl.
  - rewrite app_nil_r. repeat split; auto. intros [H|[]]; exact H.
  - destruct (IH (Run.register m r)) as (Hwf' & Hdefs & Hkeys & Hget).
    { apply well_formed_set. exact Hwf. }
    split; [exact Hwf'|]. split; [|split].
    + rewrite Hdefs. unfold Run.register, register_tool. simpl.
      rewrite <- app_assoc. reflexivity.
    + intros n. rewrite Hkeys. unfold Run.register, register_tool. simpl.
      rewrite in_keys_set. intuition.
    + intros n. rewrite Hget. clear.
      assert (Hfold : forall (l : list (Run.registration V J)) acc,
                 fold_left
                   (fun acc r => if String.eqb (Run.reg_name r) n
                                 then Some (Run.reg_function r) else acc)
                   l acc
                 = match fold_left
                           (fun acc r => if String.eqb (Run.reg_name r) n
                                         then Some (Run.reg_function r) else acc)
                           l None with
                   | Some h => Some h
                   | None => acc
                   end).
      { induction l as [|x l IHl]; intros acc; simpl; [reflexivity|].
        rewrite (IHl (if String.eqb (Run.reg_name x) n then _ else acc)).
        rewrite (IHl (if String.eqb (Run.reg_name x) n then _ else None)).
        destruct (fold_left _ l None); [reflexivity|].
        destruct (String.eqb (Run.reg_name x) n); reflexivity. }
      rewrite (Hfold rs (if String.eqb (Run.reg_name r) n then _ else None)).
      destruct (fold_left _ rs None) as [h|]; [reflexivity|].
      unfold Run.register, register_tool. simpl.
      destruct (String.eqb_spec (Run.reg_name r) n) as [<-|Hne].
      * apply get_set_same.
      * apply get_set_other. congruence.
Qed.

(** X23.  For every manager built from a new one by calls of
    [register_tool]: the definitions are those of the calls, one per call
    and in their order; the names that can be executed are exactly the names
    that were registered, each listed once and bound to the handler
    registered last under it; so there are never more tools than
    definitions. *)
Theorem registry_and_definitions_agree (rs : list (Run.registration V J)) :
  let m := Run.built rs in
  get_tool_definitions m = map Run.definition_of rs
  /\ List.NoDup (list_tools m)
  /\ (forall n, In n (list_tools m) <-> In n (map Run.reg_name rs))
  /\ (forall n, get (tools m) n = Run.last_handler n rs)
  /\ (length (list_tools m) <= length (get_tool_definitions m))%nat.
Proof.
  intros m. subst m. unfold Run.built, Run.last_handler.
  destruct (registrations_from rs __init__) as (Hwf & Hdefs & Hkeys & Hget).
  { apply List.NoDup_nil. }
  cbv zeta in *. unfold get_tool_definitions, list_tools.
  split; [exact Hdefs|]. split; [exact Hwf|]. split; [|split].
  - intros n. rewrite Hkeys. simpl. tauto.
  - intros n. rewrite Hget. destruct (fold_left _ rs None); reflexivity.
  - rewrite Hdefs. simpl. rewrite length_map.
    rewrite <- (length_map Run.reg_name rs).
    apply List.NoDup_incl_length; [exact Hwf|].
    intros n Hn. apply Hkeys in Hn as [[]|Hn]. exact Hn.
Qed.

(** X24.  Registering a tool under another name does not change what a
    call does. *)
Theorem registering_another_tool_changes_nothing (m : t V J)
    (call : ToolCall V) (name' : string) (function : handler V)
    (description : string) (parameters : J) :
  name' <> name call ->
  execute_tool (register_tool m name' function description parameters) call
  = execute_tool m call.
Proof.
  intros Hne. unfold execute_tool, register_tool. simpl.
  rewrite get_set_other by congruence. reflexivity.
Qed.

(** X25.  The exceptions of [execute_tool]: one that derives from
    [Exception] is always of the class [ToolExecutionError] itself, never of
    a subclass, also when the handler raised a subclass; one that does
    not derive from [Exception] is the exception of the handler, passed
    on as it is. *)
Theorem execute_tool_raises_the_base_class_only (m : t V J)
    (call : ToolCall V) (e : exn) :
  execute_tool m call = Raise e ->
  (isinstance e Exception = true /\ exc_type e = ToolExecutionError)
  \/ (isinstance e Exception = false
      /\ exists h, get (tools m) (name call) = Some h
                   /\ h (arguments call) = Raise e).
Proof.
  unfold execute_tool.
  destruct (get (tools m) (name call)) as [h|].
  - destruct (h (arguments call)) as [result|e0] eqn:Hh; [discriminate|].
    destruct (isinstance e0 Exception) eqn:Hexc; intros [= <-].
    + left. split; reflexivity.
    + right. split; [exact Hexc|]. exists h. auto.
  - intros [= <-]. left. split; reflexivity.
Qed.
End ToolsRuns.

(** X24 at a manager with a tool "calculate", a call of it, and the
    registration of "get_weather". *)
Lemma registering_another_tool_changes_nothing_witness :
  let m := ToolsManager.register_tool (@ToolsManager.__init__ Z string)
             "calculate" (fun _ => Return 8) "calc" "{}" in
  ToolsManager.execute_tool
    (ToolsManager.register_tool m "get_weather" (fun _ => Return 22)
       "weather" "{}")
    {| ToolsManager.name := "calculate"; ToolsManager.arguments := [] |}
  = ToolsManager.execute_tool m
      {| ToolsManager.name := "calculate"; ToolsManager.arguments := [] |}.
Proof.
  apply (registering_another_tool_changes_nothing
           (ToolsManager.register_tool (@ToolsManager.__init__ Z string)
              "calculate" (fun _ => Return 8) "calc" "{}")
           {| ToolsManager.name := "calculate"; ToolsManager.arguments := [] |}
           "get_weather" (fun _ => Return 22) "weather" "{}").
  discriminate.
Defined.

(** X25 at a handler that raises [ToolValidationError]: what surfaces is a
    plain [ToolExecutionError]. *)
Lemma execute_tool_raises_the_base_class_only_witness :
  let inner := new ToolValidationError [Lit "query missing"] in
  let e := Exn ToolExecutionError
             [Lit "Errore esecuzione "; Lit "search"; Lit ": ";
              Lit "query missing"] None (Some inner) in
  let m := ToolsManager.register_tool (@ToolsManager.__init__ Z string)
             "search" (fun _ => Raise inner) "search" "{}" in
  (isinstance e Exception = true /\ exc_type e = ToolExecutionError)
  \/ (isinstance e Exception = false
      /\ exists h, get (ToolsManager.tools m) "search" = Some h
                   /\ h [] = Raise e).
Proof.
  apply (execute_tool_raises_the_base_class_only
           (ToolsManager.register_tool (@ToolsManager.__init__ Z string)
              "search"
              (fun _ => Raise (new ToolValidationError [Lit "query missing"]))
              "search" "{}")
           {| ToolsManager.name := "search"; ToolsManager.arguments := [] |}).
  reflexivity.
Defined.

(** X26 at a handler that raises [ValueError]. *)
Lemma handler_exception_is_wrapped_witness :
  let cause := new ValueError [Lit "max_results deve essere tra 1 e 100"] in
  ToolsManager.execute_tool
    (ToolsManager.register_tool (@ToolsManager.__init__ Z string)
       "search" (fun _ => Raise cause) "search" "{}")
    {| ToolsManager.name := "search"; ToolsManager.arguments := [] |}
  = Raise (Exn ToolExecutionError
             (Lit "Errore esecuzione " :: Lit "search" :: Lit ": " :: str cause)
             None (Some cause)).
Proof.
  apply (handler_exception_is_wrapped
           (ToolsManager.register_tool (@ToolsManager.__init__ Z string)
              "search"
              (fun _ => Raise (new ValueError
                                 [Lit "max_results deve essere tra 1 e 100"]))
              "search" "{}")
           {| ToolsManager.name := "search"; ToolsManager.arguments := [] |}
           (fun _ => Raise (new ValueError
                              [Lit "max_results deve essere tra 1 e 100"]))).
  - reflexivity.
  - reflexivity.
  - reflexivity.
Defined.

Section PredefinedTools.
Import CommonTools.

(** X28.  [search_products] returns exactly when the query is not blank and
    [max_results] is between 1 and 100, both bounds included, and then with
    one product that names the query and has the given category, "generale"
    when none or an empty one is given; every other call raises
    [ValueError]. *)
Theorem search_products_checks_its_arguments (query : text)
    (category : option text) (max_results : Z) :
  (blank query = false /\ 1 <= max_results <= 100 ->
   exists p,
     search_products query category max_results = Return [p]
     /\ name p = text_of "Prodotto per " ++ query
     /\ CommonTools.category p
        = match category with
          | Some (c :: cs) => c :: cs
          | _ => text_of "generale"
          end)
  /\ (~ (blank query = false /\ 1 <= max_results <= 100) ->
      exists msg,
        search_products query category max_results = Raise (new ValueError msg)).
Proof.
  unfold search_products. split.
  - intros [Hq Hn]. rewrite Hq.
    destruct (Z.ltb_spec max_results 1); [lia|].
    destruct (Z.ltb_spec 100 max_results); [lia|].
    simpl. eexists. split; [reflexivity|]. simpl. split; [reflexivity|].
    destruct category as [[|c cs]|]; reflexivity.
  - intros Hbad. destruct (blank query); [eexists; reflexivity|].
    destruct (Z.ltb_spec max_results 1); [eexists; reflexivity|].
    destruct (Z.ltb_spec 100 max_results); [eexists; reflexivity|].
    exfalso. apply Hbad. split; [reflexivity | lia].
Qed.

Section CalculateFacts.
Context {V : Type}.
Variable is_decimal : Z -> bool.
Variable eval : text -> outcome V.
Variable float_of : V -> outcome float.

(** X27.  [calculate] hands to [eval] only expressions that are not blank
    and consist of digits, white space and the characters + - * / ( ) . ;
    and whatever fails with an exception deriving from [Exception], be it the
    check of the characters, the evaluation or the conversion to float,
    surfaces as [ValueError]. *)
Theorem calculate_evaluates_permitted_text_only (expression : text) :
  let r := calculate is_decimal eval float_of expression in
  (evaluated r = true
   <-> blank expression = false /\ expression <> []
       /\ Forall (fun c => allowed is_decimal c = true) expression)
  /\ (forall e, result r = Raise e -> isinstance e Exception = true ->
                exc_type e = ValueError).
Proof.
  intros r. subst r. unfold calculate.
  assert (Hperm : permitted is_decimal expression = true
                  <-> expression <> []
                      /\ Forall (fun c => allowed is_decimal c = true) expression).
  { unfold permitted. destruct expression as [|c cs].
    - split; [discriminate | intros [H _]; congruence].
    - rewrite forallb_forall, List.Forall_forall. split.
      + intros H. split; [discriminate | exact H].
      + intros [_ H]. exact H. }
  assert (Hinvalid : forall e0 e, invalid e0 = Raise e ->
                                  isinstance e Exception = true ->
                                  exc_type e = ValueError).
  { intros e0 e. unfold invalid.
    destruct (isinstance e0 Exception) eqn:H0; intros [= <-]; [reflexivity|].
    congruence. }
  destruct (blank expression).
  { simpl. split.
    - split; [discriminate | intros [H _]; discriminate].
    - intros e [= <-] _. reflexivity. }
  destruct (permitted is_decimal expression) eqn:Hp; simpl.
  - destruct (eval expression) as [value|e0]; simpl.
    + destruct (float_of value) as [x|e1]; simpl.
      * split; [|discriminate].
        split; [intros _; split; [reflexivity | apply Hperm; reflexivity]
               | reflexivity].
      * split; [|apply Hinvalid].
        split; [intros _; split; [reflexivity | apply Hperm; reflexivity]
               | reflexivity].
    + split; [|apply Hinvalid].
      split; [intros _; split; [reflexivity | apply Hperm; reflexivity]
             | reflexivity].
  - split; [|apply Hinvalid].
    split; [discriminate|].
    intros [_ H]. apply Hperm in H. discriminate.
Qed.
End CalculateFacts.
End PredefinedTools.

(* ===================================================================== *)
(** ** Further properties: checking before recording                       *)
(* ===================================================================== *)

Section BudgetProtocol.
Import CostController.

Lemma check_passed (now : clock) (self : t) (estimated_tokens : Z)
    (model : string) (verdict : bool) :
  result (check_budget now self estimated_tokens model) = Return verdict ->
  let cleaned := _cleanup_old_entries now self in
  state (check_budget now self estimated_tokens model) = cleaned
  /\ 0 <= estimated_tokens
  /\ tokens_at (hourly_usage cleaned) (hour_key now) + estimated_tokens
     <= max_tokens_per_hour (config self)
  /\ tokens_at (daily_usage cleaned) (day_key now) + estimated_tokens
     <= max_tokens_per_day (config self).
Proof.
  unfold check_budget. cbv zeta.
  destruct (Z.ltb_spec estimated_tokens 0); [discriminate|].
  destruct (Z.ltb_spec (max_tokens_per_hour (config self)) estimated_tokens);
    [discriminate|].
  destruct (Z.ltb_spec (max_tokens_per_hour (config self))
              (tokens_at (hourly_usage (_cleanup_old_entries now self))
                 (hour_key now) + estimated_tokens)); [discriminate|].
  change (config (_cleanup_old_entries now self)) with (config self).
  destruct (Z.ltb_spec (max_tokens_per_day (config self))
              (tokens_at (daily_usage (_cleanup_old_entries now self))
                 (day_key now) + estimated_tokens)); [discriminate|].
  destruct (int_mul_float _ _); [|discriminate].
  destruct (_ <? _)%float; [discriminate|].
  destruct (int_true_div _ _); [|discriminate].
  intros _. simpl. auto.
Qed.

Lemma tokens_after_cleanup (threshold k : string) (m : gmap string Z) :
  tokens_at (filter (λ kv, newer threshold kv.1 = true) m) k
  = if newer threshold k then tokens_at m k else 0.
Proof.
  unfold tokens_at. rewrite filter_newer_lookup.
  destruct (newer threshold k); reflexivity.
Qed.

Lemma tokens_after_insert (m : gmap string Z) (key k : string) (v : Z) :
  tokens_at (<[key := v]> m) k = if String.eqb key k then v else tokens_at m k.
Proof.
  unfold tokens_at. destruct (String.eqb_spec key k) as [->|Hne].
  - rewrite lookup_insert_eq. reflexivity.
  - rewrite lookup_insert_ne by exact Hne. reflexivity.
Qed.

Lemma tokens_after_record (now : clock) (self : t) (tokens_used : Z)
    (model : string) (k : string) :
  let self' := (record_usage now self tokens_used model).1 in
  config self' = config self
  /\ tokens_at (hourly_usage self') k
     = (if String.eqb (hour_key now) k
        then tokens_at (hourly_usage self) (hour_key now) + tokens_used
        else tokens_at (hourly_usage self) k)
  /\ tokens_at (daily_usage self') k
     = (if String.eqb (day_key now) k
        then tokens_at (daily_usage self) (day_key now) + tokens_used
        else tokens_at (daily_usage self) k).
Proof.
  unfold record_usage.
  destruct (int_mul_float tokens_used (unit_price self model)); simpl;
    rewrite !tokens_after_insert; auto.
Qed.

(** X29.  Used as meant, the controller keeps the budget: when every
    recording is preceded by a check of the same tokens that returned, no
    hour window ever holds more than the hourly ceiling and no day window
    more than the daily one, whatever the amounts asked for, the models and
    the readings of the clock. *)
Theorem checked_usage_stays_within_the_ceilings (cfg : BudgetConfig)
    (steps : list (clock * Z * string)) :
  0 <= max_tokens_per_hour cfg ->
  0 <= max_tokens_per_day cfg ->
  let self := Run.guarded_all steps (__init__ cfg) in
  forall k,
    0 <= tokens_at (hourly_usage self) k <= max_tokens_per_hour cfg
    /\ 0 <= tokens_at (daily_usage self) k <= max_tokens_per_day cfg.
Proof.
  intros Hhour Hday.
  set (within := fun s : t =>
         config s = cfg
         /\ forall k,
              0 <= tokens_at (hourly_usage s) k <= max_tokens_per_hour cfg
              /\ 0 <= tokens_at (daily_usage s) k <= max_tokens_per_day cfg).
  assert (Hcleanup : forall now s, within s -> within (_cleanup_old_entries now s)).
  { intros now s [Hcfg Hs]. split; [exact Hcfg|]. intros k. simpl.
    rewrite !tokens_after_cleanup. specialize (Hs k).
    destruct (newer (hour_threshold now) k), (newer (day_threshold now) k); lia. }
  assert (Hstep : forall s step, within s -> within (Run.guarded s step)).
  { intros s [[now tokens] model] Hs. unfold Run.guarded. simpl.
    destruct (result (check_budget now s tokens model)) as [verdict|e] eqn:Hres.
    - destruct (check_passed now s tokens model verdict Hres)
        as (-> & Hpos & Hh & Hd).
      pose proof (Hcleanup now s Hs) as [Hcfg Hclean].
      destruct Hs as [Hcfg0 _]. rewrite Hcfg0 in Hh, Hd.
      split.
      + destruct (tokens_after_record now (_cleanup_old_entries now s)
                    tokens model "") as (-> & _). exact Hcfg.
      + intros k.
        destruct (tokens_after_record now (_cleanup_old_entries now s)
                    tokens model k) as (_ & -> & ->).
        pose proof (Hclean k) as Hk.
        pose proof (Hclean (hour_key now)) as Hhk.
        pose proof (Hclean (day_key now)) as Hdk.
        destruct (String.eqb (hour_key now) k), (String.eqb (day_key now) k);
          lia.
    - rewrite state_after_check.
      destruct ((tokens <? 0) || (max_tokens_per_hour (config s) <? tokens));
        [exact Hs | apply Hcleanup; exact Hs]. }
  assert (Hrun : forall s, within s -> within (Run.guarded_all steps s)).
  { unfold Run.guarded_all. induction steps as [|step rest IH]; intros s Hs;
      simpl; [exact Hs|]. apply IH, Hstep, Hs. }
  intros self k. subst self.
  apply (Hrun (__init__ cfg)). split; [reflexivity|].
  intros k'. unfold tokens_at. simpl. rewrite !lookup_empty. simpl. lia.
Qed.
End BudgetProtocol.

(** X29 at a ceiling of 1000 tokens per hour and requests of 500, 400
    and 200 tokens in one hour. *)
Lemma checked_usage_stays_within_the_ceilings_witness :
  CostController.tokens_at
    (CostController.hourly_usage
       (Run.guarded_all
          [(Scenario.morning, 500, CostController.default_model);
           (Scenario.morning, 400, CostController.default_model);
           (Scenario.morning, 200, CostController.default_model)]
          (CostController.__init__ (Scenario.budget 1000))))
    "2026-11-03-10" <= 1000.
Proof.
  pose proof (checked_usage_stays_within_the_ceilings (Scenario.budget 1000)
                [(Scenario.morning, 500, CostController.default_model);
                 (Scenario.morning, 400, CostController.default_model);
                 (Scenario.morning, 200, CostController.default_model)]) as H.
  cbv zeta in H.
  destruct (H ltac:(simpl; lia) ltac:(simpl; lia) "2026-11-03-10")
    as [[_ Hle] _].
  exact Hle.
Defined.
